(** * Genesys WebRTC provisioning job ([webrtc_zonder_user.py])

    A shallow embedding of the provisioning script and the proofs of its
    specified properties.

    Modelling choices, all visible in the definitions below:

    - Values decoded from HTTP responses are JSON values ([json]); Python's
      [None] is [JNull].  Numbers in response bodies are integers.  Strings
      are sequences of code points below 256.
    - A Python exception is a value of [exn]; a computation that may raise
      returns a [result].
    - The remote directory is a [World]: the replies the network will give,
      in order, and the requests sent so far.  Every [requests.*] call
      consumes one reply; when none is left the call raises
      [requests.ConnectionError].  Every finite run of the script against
      any server is a run against some [World].
    - [time.sleep] and [logging] calls have no effect on control flow or on
      the remote directory and are left out. *)

From Stdlib Require Import ZArith List String Ascii Bool Lia QArith_base DecimalString.
Import ListNotations.

Set Warnings "-register-all".

Local Open Scope string_scope.
Local Open Scope list_scope.
Local Open Scope Z_scope.

(* ================================================================== *)
(** * Python values *)
(* ================================================================== *)

Inductive json : Type :=
| JNull
| JBool (b : bool)
| JInt (n : Z)
| JStr (s : string)
| JArr (items : list json)
| JObj (fields : list (string * json)).

(** Python [dict]s read from JSON: association lists, first binding of a
    key is the value of the key. *)
Definition dict := list (string * json).

Fixpoint lookup (k : string) (m : dict) : option json :=
  match m with
  | [] => None
  | (k', v) :: m' => if String.eqb k k' then Some v else lookup k m'
  end.

Inductive exn : Type :=
| KeyError
| IndexError
| TypeError
| AttributeError
| ValueError (msg : string)
| RequestException
| SystemExit (msg : string).

(** [except Exception] catches every class but [SystemExit] (a
    [BaseException]). *)
Definition is_Exception (e : exn) : bool :=
  match e with
  | SystemExit _ => false
  | _ => true
  end.

Inductive result (A : Type) : Type :=
| Ret (a : A)
| Raise (e : exn).
Arguments Ret {A} a.
Arguments Raise {A} e.

Definition rbind {A B} (r : result A) (k : A -> result B) : result B :=
  match r with
  | Ret a => k a
  | Raise e => Raise e
  end.

Declare Scope res_scope.
Delimit Scope res_scope with res.
Notation "x <~ r ; k" := (rbind r (fun x => k))
  (at level 61, r at next level, right associativity) : res_scope.

(* ------------------------------------------------------------------ *)
(** ** Strings: [str.strip], [str.lower], [in] *)
(* ------------------------------------------------------------------ *)

Definition code (c : ascii) : Z := Z.of_N (N_of_ascii c).

(** [str.isspace] on code points below 256. *)
Definition is_space (c : ascii) : bool :=
  let n := code c in
  ((9 <=? n) && (n <=? 13)) || ((28 <=? n) && (n <=? 32))
  || (n =? 133) || (n =? 160).

Fixpoint lstrip (s : string) : string :=
  match s with
  | EmptyString => EmptyString
  | String c r => if is_space c then lstrip r else s
  end.

Fixpoint rstrip (s : string) : string :=
  match s with
  | EmptyString => EmptyString
  | String c r =>
      match rstrip r with
      | EmptyString => if is_space c then EmptyString else String c EmptyString
      | r' => String c r'
      end
  end.

Definition strip (s : string) : string := rstrip (lstrip s).

(** [str.lower] on code points below 256: A-Z and the Latin-1 capitals. *)
Definition lower_char (c : ascii) : ascii :=
  let n := code c in
  if ((65 <=? n) && (n <=? 90))
     || ((192 <=? n) && (n <=? 222) && negb (n =? 215))
  then ascii_of_N (Z.to_N (n + 32))
  else c.

Fixpoint lower (s : string) : string :=
  match s with
  | EmptyString => EmptyString
  | String c r => String (lower_char c) (lower r)
  end.

(** [needle in hay] for two strings. *)
Fixpoint str_in (needle hay : string) : bool :=
  if String.prefix needle hay then true
  else match hay with
       | EmptyString => false
       | String _ h => str_in needle h
       end.

Definition str_nonempty (s : string) : bool :=
  match s with
  | EmptyString => false
  | _ => true
  end.

(* ------------------------------------------------------------------ *)
(** ** Truthiness, equality, item access *)
(* ------------------------------------------------------------------ *)

Definition truthy (v : json) : bool :=
  match v with
  | JNull => false
  | JBool b => b
  | JInt n => negb (n =? 0)
  | JStr s => str_nonempty s
  | JArr l => match l with [] => false | _ => true end
  | JObj m => match m with [] => false | _ => true end
  end.

(** [a or b] *)
Definition py_or (a b : json) : json := if truthy a then a else b.

Definition bool_int (b : bool) : Z := if b then 1 else 0.

(** [a == b].  Dicts are compared as maps (their keys are distinct). *)
Fixpoint py_eq (a b : json) {struct a} : bool :=
  match a, b with
  | JNull, JNull => true
  | JBool x, JBool y => Bool.eqb x y
  | JBool x, JInt n => bool_int x =? n
  | JInt n, JBool y => n =? bool_int y
  | JInt n, JInt k => n =? k
  | JStr s, JStr t => String.eqb s t
  | JArr l, JArr l' =>
      (fix go (l l' : list json) : bool :=
         match l, l' with
         | [], [] => true
         | x :: xs, y :: ys => py_eq x y && go xs ys
         | _, _ => false
         end) l l'
  | JObj m, JObj m' =>
      Nat.eqb (List.length m) (List.length m')
      && (fix go (m : dict) : bool :=
            match m with
            | [] => true
            | (k, v) :: rest =>
                match lookup k m' with
                | Some v' => py_eq v v'
                | None => false
                end && go rest
            end) m
  | _, _ => false
  end.

(** [v.get(k, d)]; only dicts have the method. *)
Definition py_get (v : json) (k : string) (d : json) : result json :=
  match v with
  | JObj m => Ret (match lookup k m with Some x => x | None => d end)
  | _ => Raise AttributeError
  end.

(** [v[k]] for a string key. *)
Definition py_getitem (v : json) (k : string) : result json :=
  match v with
  | JObj m => match lookup k m with Some x => Ret x | None => Raise KeyError end
  | _ => Raise TypeError
  end.

(** [v[0]] *)
Definition py_index0 (v : json) : result json :=
  match v with
  | JArr (x :: _) => Ret x
  | JArr [] => Raise IndexError
  | JStr (String c _) => Ret (JStr (String c EmptyString))
  | JStr EmptyString => Raise IndexError
  | JObj _ => Raise KeyError
  | _ => Raise TypeError
  end.

Fixpoint chars (s : string) : list json :=
  match s with
  | EmptyString => []
  | String c r => JStr (String c EmptyString) :: chars r
  end.

(** The items [for x in v] visits. *)
Definition py_iter (v : json) : result (list json) :=
  match v with
  | JArr l => Ret l
  | JObj m => Ret (map (fun kv => JStr (fst kv)) m)
  | JStr s => Ret (chars s)
  | _ => Raise TypeError
  end.

(** [page >= v] for an [int] on the left. *)
Definition py_ge_int (page : Z) (v : json) : result bool :=
  match v with
  | JInt n => Ret (n <=? page)
  | JBool b => Ret (bool_int b <=? page)
  | _ => Raise TypeError
  end.

(** [(v).lower()], [(v).strip()]: only strings have the methods. *)
Definition py_lower (v : json) : result string :=
  match v with
  | JStr s => Ret (lower s)
  | _ => Raise AttributeError
  end.

Definition py_strip (v : json) : result string :=
  match v with
  | JStr s => Ret (strip s)
  | _ => Raise AttributeError
  end.

(* ------------------------------------------------------------------ *)
(** ** [str(v)], as f-strings and [%s] format values *)
(* ------------------------------------------------------------------ *)

Definition dquote : ascii := ascii_of_nat 34.
Definition squote : ascii := ascii_of_nat 39.
Definition backslash : ascii := ascii_of_nat 92.

Fixpoint has_char (c : ascii) (s : string) : bool :=
  match s with
  | EmptyString => false
  | String d r => Ascii.eqb c d || has_char c r
  end.

Definition hex_digit (n : Z) : ascii :=
  if n <? 10 then ascii_of_N (Z.to_N (48 + n)) else ascii_of_N (Z.to_N (87 + n)).

Definition repr_char (q c : ascii) : string :=
  let n := code c in
  if Ascii.eqb c q || Ascii.eqb c backslash then String backslash (String c EmptyString)
  else if n =? 9 then String backslash "t"
  else if n =? 10 then String backslash "n"
  else if n =? 13 then String backslash "r"
  else if (n <? 32) || ((127 <=? n) && (n <=? 160)) || (n =? 173)
       then String backslash
              (String "x" (String (hex_digit (n / 16))
                             (String (hex_digit (n mod 16)) EmptyString)))
  else String c EmptyString.

Fixpoint repr_chars (q : ascii) (s : string) : string :=
  match s with
  | EmptyString => EmptyString
  | String c r => (repr_char q c ++ repr_chars q r)%string
  end.

Definition repr_str (s : string) : string :=
  let q := if has_char squote s && negb (has_char dquote s) then dquote else squote in
  String q (repr_chars q s ++ String q EmptyString)%string.

Definition str_of_Z (n : Z) : string :=
  DecimalString.NilZero.string_of_int (Z.to_int n).

Fixpoint py_repr (v : json) : string :=
  (match v with
  | JNull => "None"
  | JBool true => "True"
  | JBool false => "False"
  | JInt n => str_of_Z n
  | JStr s => repr_str s
  | JArr l =>
      "[" ++ (fix go (l : list json) : string :=
                match l with
                | [] => EmptyString
                | [x] => py_repr x
                | x :: xs => py_repr x ++ ", " ++ go xs
                end) l ++ "]"
  | JObj m =>
      "{" ++ (fix go (m : dict) : string :=
                match m with
                | [] => EmptyString
                | [(k, x)] => repr_str k ++ ": " ++ py_repr x
                | (k, x) :: xs => repr_str k ++ ": " ++ py_repr x ++ ", " ++ go xs
                end) m ++ "}"
  end)%string.

Definition py_str (v : json) : string :=
  match v with
  | JStr s => s
  | _ => py_repr v
  end.

(* ================================================================== *)
(** * The remote directory, seen through [requests] *)
(* ================================================================== *)

Inductive Method : Type := GET | POST | PUT | PATCH.

(** The URLs the script builds, with the values it formats into them. *)
Inductive Endpoint : Type :=
| OAuthToken
| Users (page : Z)
| Stations (user_id : json)
| UserStation (user_id : json)
| DefaultStation (user_id station_id : json)
| Phones (page : Z)
| Phone (phone_id : json)
| PhonesCreate
| RoutingSkills (page : Z)
| RoutingLanguages (page : Z)
| UserRoutingSkills (user_id : json) (page : Z)
| UserRoutingLanguages (user_id : json) (page : Z)
| UserRoutingSkillsBulk (user_id : json)
| UserRoutingLanguagesBulk (user_id : json).

Inductive Body : Type :=
| NoBody
| Form (client_id client_secret : option string)
| Json (payload : json)
| Bulk (id : json) (proficiency : Q).

Record Request : Type := mkRequest {
  meth : Method;
  url : Endpoint;
  headers : list (string * string);
  body : Body
}.

(** [content] is [None] when [resp.json()] raises. *)
Record Response : Type := mkResponse {
  status_code : Z;
  content : option json
}.

Inductive Reply : Type :=
| Resp (r : Response)
| NetErr.

Record World : Type := mkWorld {
  script : list Reply;
  sent : list Request
}.

Definition M (A : Type) : Type := World -> result A * World.

Definition ret {A} (a : A) : M A := fun w => (Ret a, w).

Definition raise {A} (e : exn) : M A := fun w => (Raise e, w).

Definition bind {A B} (m : M A) (k : A -> M B) : M B :=
  fun w =>
    match m w with
    | (Ret a, w') => k a w'
    | (Raise e, w') => (Raise e, w')
    end.

Definition lift {A} (r : result A) : M A := fun w => (r, w).

Declare Scope io_scope.
Delimit Scope io_scope with io.
Notation "x <- m ;; k" := (bind m (fun x => k))
  (at level 61, m at next level, right associativity) : io_scope.
Notation "' pat <- m ;; k" := (bind m (fun x => match x with pat => k end))
  (at level 61, pat pattern, m at next level, right associativity) : io_scope.

(** One [requests.get/post/put/patch] call. *)
Definition http (rq : Request) : M Response :=
  fun w =>
    match script w with
    | Resp r :: rest => (Ret r, mkWorld rest (sent w ++ [rq]))
    | NetErr :: rest => (Raise RequestException, mkWorld rest (sent w ++ [rq]))
    | [] => (Raise RequestException, mkWorld [] (sent w ++ [rq]))
    end.

(** [try: m  except Exception as e: handler e] *)
Definition try_except_Exception {A} (m : M A) (handler : exn -> M A) : M A :=
  fun w =>
    match m w with
    | (Raise e, w') => if is_Exception e then handler e w' else (Raise e, w')
    | r => r
    end.

(** [try: m  except requests.RequestException: handler] *)
Definition try_except_RequestException {A} (m : M A) (handler : M A) : M A :=
  fun w =>
    match m w with
    | (Raise RequestException, w') => handler w'
    | r => r
    end.

(** The shape of every paged loop of the script:
    [while True: r = requests.get(url(s)); ...], where the rest of the
    body is a function of the loop variables [s] and of [r] that either
    leaves the loop with a value or goes round again. *)
Inductive Ctl (S A : Type) : Type :=
| Next (s : S)
| Done (a : A).
Arguments Next {S A} s.
Arguments Done {S A} a.

Fixpoint while_get_from {S A} (rq : S -> Request)
    (step : S -> Response -> result (Ctl S A))
    (s : S) (replies : list Reply) (log : list Request) : result A * World :=
  match replies with
  | [] => (Raise RequestException, mkWorld [] (log ++ [rq s]))
  | NetErr :: rest => (Raise RequestException, mkWorld rest (log ++ [rq s]))
  | Resp r :: rest =>
      match step s r with
      | Raise e => (Raise e, mkWorld rest (log ++ [rq s]))
      | Ret (Done a) => (Ret a, mkWorld rest (log ++ [rq s]))
      | Ret (Next s') => while_get_from rq step s' rest (log ++ [rq s])
      end
  end.

Definition while_get {S A} (rq : S -> Request)
    (step : S -> Response -> result (Ctl S A)) (s : S) : M A :=
  fun w => while_get_from rq step s (script w) (sent w).

(* ================================================================== *)
(** * The script *)
(* ================================================================== *)

(** The module-level configuration read from the environment.  The
    region, the request delay, the HTTP timeout and the verification
    sleep only shape URLs and waiting times. *)
Record Config : Type := mkConfig {
  CLIENT_ID : option string;
  CLIENT_SECRET : option string;
  TEMPLATE_PHONE_NAME_CONTAINS : string;
  TARGET_SKILL_NAME : string;
  TARGET_LANGUAGE_NAME : string;
  TARGET_SKILL_PROFICIENCY : Q;
  TARGET_LANGUAGE_PROFICIENCY : Q;
  DEFAULT_STATION_VERIFY_RETRIES : Z;
  MAX_USERS : Z
}.

(** The dict [get_all_active_users] builds for each user. *)
Record User : Type := mkUser {
  ID : json;
  Naam : json;
  Email : json;
  Afdeling : json;
  Titel : json
}.

Definition auth_headers (token : json) : list (string * string) :=
  [("Authorization", ("Bearer " ++ py_str token)%string)].

Definition json_headers (token : json) : list (string * string) :=
  auth_headers token ++ [("Content-Type", "application/json")].

Definition safe_get_json (resp : Response) : json :=
  match content resp with
  | Some j => j
  | None => JObj []
  end.

Definition opt_truthy (s : option string) : bool :=
  match s with
  | Some s => str_nonempty s
  | None => false
  end.

(** [range(1, n + 1)] has [Z.to_nat n] elements. *)
Definition range1 (n : Z) : nat := Z.to_nat n.

(** [l[:n]] *)
Definition py_slice_to {A} (n : Z) (l : list A) : list A :=
  if 0 <=? n then firstn (Z.to_nat n) l
  else firstn (List.length l - Z.to_nat (- n)) l.

Section Job.

Variable cfg : Config.

Local Open Scope io_scope.
Local Open Scope res_scope.

Definition require_env : M unit :=
  if negb (opt_truthy (CLIENT_ID cfg)) || negb (opt_truthy (CLIENT_SECRET cfg))
  then raise (SystemExit "Missing env vars. Set GENESYS_CLIENT_ID and GENESYS_CLIENT_SECRET as GitHub Secrets.")
  else ret tt.

(** ** OAuth *)

(** [r.json()] on a body that is not JSON raises
    [requests.exceptions.JSONDecodeError], a [RequestException]. *)
Definition get_access_token : M json :=
  try_except_RequestException
    (r <- http (mkRequest POST OAuthToken []
                  (Form (CLIENT_ID cfg) (CLIENT_SECRET cfg))) ;;
     if status_code r =? 200 then
       match content r with
       | Some j => lift (py_get j "access_token" JNull)
       | None => raise RequestException
       end
     else ret JNull)
    (ret JNull).

(** ** Users (paged) *)

Fixpoint collect_active (users : list User) (entities : list json)
  : result (list User) :=
  match entities with
  | [] => Ret users
  | u :: rest =>
      st <~ py_get u "state" JNull ;
      if negb (py_eq st (JStr "active")) then collect_active users rest
      else
        id <~ py_get u "id" JNull ;
        name <~ py_get u "name" (JStr EmptyString) ;
        email <~ py_get u "email" JNull ;
        department <~ py_get u "department" JNull ;
        title <~ py_get u "title" JNull ;
        collect_active (users ++ [mkUser id name email department title]) rest
  end.

Definition users_page (s : Z * list User) (r : Response)
  : result (Ctl (Z * list User) (list User)) :=
  let '(page, users) := s in
  if negb (status_code r =? 200) then Ret (Done users)
  else
    let data := safe_get_json r in
    e <~ py_get data "entities" (JArr []) ;
    entities <~ py_iter (py_or e (JArr [])) ;
    users <~ collect_active users entities ;
    pc <~ py_get data "pageCount" (JInt 1) ;
    last <~ py_ge_int page pc ;
    if last then Ret (Done users)
    else
      let page := page + 1 in
      if negb (MAX_USERS cfg =? 0)
         && (MAX_USERS cfg <=? Z.of_nat (List.length users))
      then Ret (Done (py_slice_to (MAX_USERS cfg) users))
      else Ret (Next (page, users)).

Definition get_all_active_users (token : json) : M (list User) :=
  while_get (fun s => mkRequest GET (Users (fst s)) (auth_headers token) NoBody)
            users_page (1, []).

(** ** WebRTC station *)

Definition get_webrtc_station_for_user (token user_id : json)
  : M (bool * json) :=
  r <- http (mkRequest GET (Stations user_id) (auth_headers token) NoBody) ;;
  if negb (status_code r =? 200) then ret (false, JNull)
  else
    let data := safe_get_json r in
    e <- lift (py_get data "entities" (JArr [])) ;;
    let entities := py_or e (JArr []) in
    if negb (truthy entities) then ret (false, JNull)
    else
      first <- lift (py_index0 entities) ;;
      id <- lift (py_get first "id" JNull) ;;
      ret (true, id).

Definition get_user_station_state (token user_id : json) : M json :=
  r <- http (mkRequest GET (UserStation user_id) (auth_headers token) NoBody) ;;
  if negb (status_code r =? 200) then ret JNull
  else ret (safe_get_json r).

(** What one probed field adds to [candidates]. *)
Definition candidate (v : json) : list json :=
  match v with
  | JStr _ => [v]
  | JObj d =>
      match lookup "id" d with
      | Some (JStr s) => [JStr s]
      | _ => []
      end
  | _ => []
  end.

Definition station_candidate (v : json) : list json :=
  match v with
  | JObj d =>
      match lookup "id" d with
      | Some (JStr s) => [JStr s]
      | _ => []
      end
  | _ => []
  end.

Fixpoint probe (state : json) (keys : list string) : result (list json) :=
  match keys with
  | [] => Ret []
  | key :: rest =>
      v <~ py_get state key JNull ;
      cs <~ probe state rest ;
      Ret (candidate v ++ cs)
  end.

Definition is_default_station_set (state expected_station_id : json)
  : result bool :=
  if negb (truthy state) || negb (truthy expected_station_id) then Ret false
  else
    cs <~ probe state ["defaultStationId"; "defaultStation"; "stationId";
                       "associatedStationId"; "associatedStation"] ;
    station <~ py_get state "station" JNull ;
    let candidates := cs ++ station_candidate station in
    Ret (existsb (py_eq expected_station_id) (filter truthy candidates)).

(** The verification loop of [set_default_station]: [true] when an
    attempt returned from inside the loop, [false] when the loop ran
    out. *)
Fixpoint verify_default_station (token user_id station_id : json)
    (attempts : nat) : M bool :=
  match attempts with
  | O => ret false
  | S n =>
      state <- get_user_station_state token user_id ;;
      seen <- lift (is_default_station_set state station_id) ;;
      if seen then ret true
      else verify_default_station token user_id station_id n
  end.

Definition put_accepted (status : Z) : bool :=
  (status =? 200) || (status =? 202) || (status =? 204).

Definition set_default_station (token user_id station_id : json) : M bool :=
  r <- http (mkRequest PUT (DefaultStation user_id station_id)
               (auth_headers token) NoBody) ;;
  if negb (put_accepted (status_code r)) then ret false
  else
    verified <- verify_default_station token user_id station_id
                  (range1 (DEFAULT_STATION_VERIFY_RETRIES cfg)) ;;
    if verified then ret true
    else ret true.

(** ** Template phone *)

(** [for p in entities: ...] of [find_phone_id_by_name_contains]:
    [Some id] when the loop returns [p.get("id")]. *)
Fixpoint scan_phones (needle : string) (entities : list json)
  : result (option json) :=
  match entities with
  | [] => Ret None
  | p :: rest =>
      n <~ py_get p "name" JNull ;
      pname <~ py_lower (py_or n (JStr EmptyString)) ;
      if str_nonempty needle && str_in needle pname then
        id <~ py_get p "id" JNull ;
        Ret (Some id)
      else scan_phones needle rest
  end.

Definition phones_page (needle : string) (page : Z) (r : Response)
  : result (Ctl Z json) :=
  if negb (status_code r =? 200) then Ret (Done JNull)
  else
    let data := safe_get_json r in
    e <~ py_get data "entities" (JArr []) ;
    entities <~ py_iter (py_or e (JArr [])) ;
    found <~ scan_phones needle entities ;
    match found with
    | Some id => Ret (Done id)
    | None =>
        pc <~ py_get data "pageCount" (JInt 1) ;
        last <~ py_ge_int page pc ;
        if last then Ret (Done JNull) else Ret (Next (page + 1))
    end.

Definition find_phone_id_by_name_contains (token : json)
    (name_contains : string) : M json :=
  let needle := lower (strip name_contains) in
  while_get (fun page => mkRequest GET (Phones page) (auth_headers token) NoBody)
            (phones_page needle) 1.

Definition get_phone_details (token phone_id : json) : M json :=
  r <- http (mkRequest GET (Phone phone_id) (auth_headers token) NoBody) ;;
  if negb (status_code r =? 200) then ret JNull
  else ret (safe_get_json r).

Definition build_payload_from_template (template_phone : json) (user : User)
  : result json :=
  site <~ py_getitem template_phone "site" ;
  site_id <~ py_getitem site "id" ;
  pbs <~ py_getitem template_phone "phoneBaseSettings" ;
  phone_base_settings_id <~ py_getitem pbs "id" ;
  l <~ py_get template_phone "lines" (JArr []) ;
  let lines := py_or l (JArr []) in
  if negb (truthy lines) then Raise (ValueError "Template phone has no lines[]")
  else
    line0 <~ py_index0 lines ;
    s <~ py_get line0 "lineBaseSettings" (JObj []) ;
    let lbs := py_or s (JObj []) in
    line_base_settings_id <~ py_get lbs "id" JNull ;
    if negb (truthy line_base_settings_id)
    then Raise (ValueError "Template phone lines[0].lineBaseSettings.id missing")
    else
      Ret (JObj
        [("name", JStr ("WebRTC - " ++ py_str (Naam user))%string);
         ("site", JObj [("id", site_id)]);
         ("phoneBaseSettings", JObj [("id", phone_base_settings_id)]);
         ("webRtcUser", JObj [("id", ID user)]);
         ("lines", JArr [JObj [("lineBaseSettings",
                                JObj [("id", line_base_settings_id)])]])]).

(** ** Skill/Language lookup *)

(** [for s in entities: ...] of the two name lookups. *)
Fixpoint scan_names (needle : string) (entities : list json)
  : result (option json) :=
  match entities with
  | [] => Ret None
  | s :: rest =>
      n <~ py_get s "name" JNull ;
      name <~ py_strip (py_or n (JStr EmptyString)) ;
      if String.eqb (lower name) needle then
        id <~ py_get s "id" JNull ;
        Ret (Some id)
      else scan_names needle rest
  end.

Definition skills_page (needle : string) (page : Z) (r : Response)
  : result (Ctl Z json) :=
  if negb (status_code r =? 200) then Ret (Done JNull)
  else
    let data := safe_get_json r in
    e <~ py_get data "entities" (JArr []) ;
    entities <~ py_iter (py_or e (JArr [])) ;
    found <~ scan_names needle entities ;
    match found with
    | Some id => Ret (Done id)
    | None =>
        pc <~ py_get data "pageCount" (JInt 1) ;
        last <~ py_ge_int page pc ;
        if last then Ret (Done JNull) else Ret (Next (page + 1))
    end.

Definition find_routing_skill_id_by_name (token : json)
    (skill_name_exact : string) : M json :=
  let needle := lower (strip skill_name_exact) in
  while_get (fun page => mkRequest GET (RoutingSkills page) (auth_headers token) NoBody)
            (skills_page needle) 1.

Definition languages_page (needle : string) (page : Z) (r : Response)
  : result (Ctl Z json) :=
  if negb (status_code r =? 200) then Ret (Done JNull)
  else
    let data := safe_get_json r in
    e <~ py_get data "entities" (JArr []) ;
    entities <~ py_iter (py_or e (JArr [])) ;
    found <~ scan_names needle entities ;
    match found with
    | Some id => Ret (Done id)
    | None =>
        pc <~ py_get data "pageCount" (JInt 1) ;
        last <~ py_ge_int page pc ;
        if last then Ret (Done JNull) else Ret (Next (page + 1))
    end.

Definition find_routing_language_id_by_name (token : json)
    (language_name_exact : string) : M json :=
  let needle := lower (strip language_name_exact) in
  while_get (fun page => mkRequest GET (RoutingLanguages page) (auth_headers token) NoBody)
            (languages_page needle) 1.

(** ** User has skill/language (paged) *)

(** [any(e.get("id") == x for e in entities)] *)
Fixpoint any_id (x : json) (entities : list json) : result bool :=
  match entities with
  | [] => Ret false
  | e :: rest =>
      id <~ py_get e "id" JNull ;
      if py_eq id x then Ret true else any_id x rest
  end.

Definition user_skills_page (skill_id : json) (page : Z) (r : Response)
  : result (Ctl Z bool) :=
  if negb (status_code r =? 200) then Ret (Done false)
  else
    let data := safe_get_json r in
    e <~ py_get data "entities" (JArr []) ;
    entities <~ py_iter (py_or e (JArr [])) ;
    found <~ any_id skill_id entities ;
    if found then Ret (Done true)
    else
      pc <~ py_get data "pageCount" (JInt 1) ;
      last <~ py_ge_int page pc ;
      if last then Ret (Done false) else Ret (Next (page + 1)).

Definition user_has_skill (token user_id skill_id : json) : M bool :=
  while_get (fun page => mkRequest GET (UserRoutingSkills user_id page)
                           (auth_headers token) NoBody)
            (user_skills_page skill_id) 1.

Definition user_languages_page (language_id : json) (page : Z) (r : Response)
  : result (Ctl Z bool) :=
  if negb (status_code r =? 200) then Ret (Done false)
  else
    let data := safe_get_json r in
    e <~ py_get data "entities" (JArr []) ;
    entities <~ py_iter (py_or e (JArr [])) ;
    found <~ any_id language_id entities ;
    if found then Ret (Done true)
    else
      pc <~ py_get data "pageCount" (JInt 1) ;
      last <~ py_ge_int page pc ;
      if last then Ret (Done false) else Ret (Next (page + 1)).

Definition user_has_language (token user_id language_id : json) : M bool :=
  while_get (fun page => mkRequest GET (UserRoutingLanguages user_id page)
                           (auth_headers token) NoBody)
            (user_languages_page language_id) 1.

(** ** Assign skill/language (bulk PATCH) *)

Definition patch_accepted (status : Z) : bool :=
  (status =? 200) || (status =? 201) || (status =? 202) || (status =? 204).

Definition ensure_user_skill (token : json) (user : User) (skill_id : json)
    (proficiency : Q) : M bool :=
  let user_id := ID user in
  has <- user_has_skill token user_id skill_id ;;
  if has then ret true
  else
    r <- http (mkRequest PATCH (UserRoutingSkillsBulk user_id)
                 (json_headers token) (Bulk skill_id proficiency)) ;;
    if negb (patch_accepted (status_code r)) then ret false
    else ret true.

Definition ensure_user_language (token : json) (user : User)
    (language_id : json) (proficiency : Q) : M bool :=
  let user_id := ID user in
  has <- user_has_language token user_id language_id ;;
  if has then ret true
  else
    r <- http (mkRequest PATCH (UserRoutingLanguagesBulk user_id)
                 (json_headers token) (Bulk language_id proficiency)) ;;
    if negb (patch_accepted (status_code r)) then ret false
    else ret true.

Definition ensure_user_skill_and_language (token : json) (user : User)
    (skill_id language_id : json) : M bool :=
  ok1 <- ensure_user_skill token user skill_id (TARGET_SKILL_PROFICIENCY cfg) ;;
  ok2 <- ensure_user_language token user language_id
           (TARGET_LANGUAGE_PROFICIENCY cfg) ;;
  ret (ok1 && ok2).

(** ** Create WebRTC phone *)

Definition post_created (status : Z) : bool :=
  (status =? 200) || (status =? 201).

(** [for _ in range(1, 7): ...] of [create_webrtc_phone_for_user]. *)
Fixpoint await_station (token : json) (user : User) (attempts : nat)
  : M unit :=
  match attempts with
  | O => ret tt
  | S n =>
      ' (has_webrtc, station_id) <- get_webrtc_station_for_user token (ID user) ;;
      if has_webrtc && truthy station_id then
        _ <- set_default_station token (ID user) station_id ;;
        ret tt
      else await_station token user n
  end.

Definition create_webrtc_phone_for_user (token : json) (user : User)
    (template_phone_details skill_id language_id : json) : M bool :=
  payload <- lift (build_payload_from_template template_phone_details user) ;;
  r <- http (mkRequest POST PhonesCreate (json_headers token) (Json payload)) ;;
  if negb (post_created (status_code r)) then ret false
  else
    _ <- await_station token user 6 ;;
    ensure_user_skill_and_language token user skill_id language_id.

(** ** Filter: users without WebRTC *)

Fixpoint scan_without_webrtc (token : json) (users result : list User)
  : M (list User) :=
  match users with
  | [] => ret result
  | u :: rest =>
      ' (has_webrtc, _) <- get_webrtc_station_for_user token (ID u) ;;
      scan_without_webrtc token rest
        (if negb has_webrtc then result ++ [u] else result)
  end.

Definition get_users_without_webrtc (token : json) (users : list User)
  : M (list User) :=
  scan_without_webrtc token users [].

(** ** Main job *)

(** The creation loop of [run], from the counters [ok] and [fail] it has
    reached; returns the counters after the last user. *)
Fixpoint provision (token : json) (users : list User)
    (template_phone_details skill_id language_id : json) (ok fail : Z)
  : M (Z * Z) :=
  match users with
  | [] => ret (ok, fail)
  | u :: rest =>
      ' (ok, fail) <-
        try_except_Exception
          (success <- create_webrtc_phone_for_user token u
                        template_phone_details skill_id language_id ;;
           if success then ret (ok + 1, fail) else ret (ok, fail + 1))
          (fun e => ret (ok, fail + 1)) ;;
      provision token rest template_phone_details skill_id language_id ok fail
  end.

(** [run] returns what its last log line reports: [None] after
    [Nothing to do.], the triple [(ok, fail, total)] after [DONE.]. *)
Definition run : M (option (Z * Z * Z)) :=
  _ <- require_env ;;
  token <- get_access_token ;;
  if negb (truthy token) then raise (SystemExit "Could not obtain access token")
  else
  skill_id <- find_routing_skill_id_by_name token (TARGET_SKILL_NAME cfg) ;;
  if negb (truthy skill_id)
  then raise (SystemExit ("Skill not found: " ++ TARGET_SKILL_NAME cfg)%string)
  else
  language_id <- find_routing_language_id_by_name token (TARGET_LANGUAGE_NAME cfg) ;;
  if negb (truthy language_id)
  then raise (SystemExit ("Language not found: " ++ TARGET_LANGUAGE_NAME cfg)%string)
  else
  template_phone_id <-
    find_phone_id_by_name_contains token (TEMPLATE_PHONE_NAME_CONTAINS cfg) ;;
  if negb (truthy template_phone_id)
  then raise (SystemExit ("Template phone not found (name contains): "
                          ++ TEMPLATE_PHONE_NAME_CONTAINS cfg)%string)
  else
  template_phone_details <- get_phone_details token template_phone_id ;;
  if negb (truthy template_phone_details)
  then raise (SystemExit "Could not fetch template phone details")
  else
  users_all <- get_all_active_users token ;;
  users <- get_users_without_webrtc token users_all ;;
  match users with
  | [] => ret None
  | _ =>
      ' (ok, fail) <- provision token users template_phone_details
                        skill_id language_id 0 0 ;;
      ret (Some (ok, fail, Z.of_nat (List.length users)))
  end.

End Job.

(* ================================================================== *)
(** * Vocabulary of the properties *)
(* ================================================================== *)

(** ** Runs *)

(** Every request [m] adds to the log satisfies [P]. *)
Definition sends {A} (P : Request -> Prop) (m : M A) : Prop :=
  forall w o w', m w = (o, w') ->
    exists l, sent w' = sent w ++ l /\ Forall P l.

(** Whatever is raised is an [Exception]. *)
Definition rraises {A} (r : result A) : Prop :=
  match r with
  | Raise e => is_Exception e = true
  | Ret _ => True
  end.

Definition raises_Exception {A} (m : M A) : Prop :=
  forall w e w', m w = (Raise e, w') -> is_Exception e = true.

(** ** Default-device setter *)

(** What [get_user_station_state] hands to the check for a reply. *)
Definition read_state (r : Response) : json :=
  if negb (status_code r =? 200) then JNull else safe_get_json r.

(** A re-read that completes and does not show the expected station. *)
Definition read_misses (station_id : json) (r : Response) : bool :=
  match is_default_station_set (read_state r) station_id with
  | Ret false => true
  | _ => false
  end.

Definition station_read (token user_id : json) : Request :=
  mkRequest GET (UserStation user_id) (auth_headers token) NoBody.

(** ** Skill/language assigner *)

(** The requests of a log that change the remote directory. *)
Definition mutating (rq : Request) : bool :=
  match meth rq with
  | GET => false
  | _ => true
  end.

Definition mutations (log : list Request) : list Request :=
  filter mutating log.

(** Pages that a paged loop reads through: on each of them, in turn, the
    loop body asks for the following page. *)
Fixpoint pages_continue {A} (step : Z -> Response -> result (Ctl Z A))
    (page : Z) (pages : list Response) : bool :=
  match pages with
  | [] => true
  | r :: rest =>
      match step page r with
      | Ret (Next p) => (p =? page + 1) && pages_continue step (page + 1) rest
      | _ => false
      end
  end.

(** The requests for [n] successive pages from [page] on. *)
Fixpoint page_requests (rq : Z -> Request) (page : Z) (n : nat)
  : list Request :=
  match n with
  | O => []
  | S k => rq page :: page_requests rq (page + 1) k
  end.

Definition skills_read (token uid : json) (page : Z) : Request :=
  mkRequest GET (UserRoutingSkills uid page) (auth_headers token) NoBody.

Definition languages_read (token uid : json) (page : Z) : Request :=
  mkRequest GET (UserRoutingLanguages uid page) (auth_headers token) NoBody.

(** ** Per-user workflow and batch *)

(** The POST by which the workflow creates the endpoint. *)
Definition create_request (token payload : json) : Request :=
  mkRequest POST PhonesCreate (json_headers token) (Json payload).

(** What the workflow does for each user of the creation phase, in
    order, each in the world its predecessors left; with the world after
    the last user. *)
Fixpoint workflow_outcomes (cfg : Config) (token : json) (users : list User)
    (tpl sk lang : json) (w : World) : list (result bool) * World :=
  match users with
  | [] => ([], w)
  | u :: rest =>
      let (o, w1) := create_webrtc_phone_for_user cfg token u tpl sk lang w in
      let (os, w2) := workflow_outcomes cfg token rest tpl sk lang w1 in
      (o :: os, w2)
  end.

Definition succeeded (o : result bool) : bool :=
  match o with
  | Ret true => true
  | _ => false
  end.

(** The workflow returned [False] or raised. *)
Definition failed (o : result bool) : bool :=
  match o with
  | Ret true => false
  | _ => true
  end.

Definition tally (p : result bool -> bool) (os : list (result bool)) : Z :=
  Z.of_nat (List.length (filter p os)).

(** ** Template phone *)

(** The template has no lines entry, or its first line lacks a
    lineBaseSettings id. *)
Definition lacks_line_settings (tpl : json) : bool :=
  match tpl with
  | JObj m =>
      match lookup "lines" m with
      | None => true
      | Some JNull => true
      | Some (JArr []) => true
      | Some (JArr (JObj line :: _)) =>
          match lookup "lineBaseSettings" line with
          | None => true
          | Some JNull => true
          | Some (JObj lbs) =>
              match lookup "id" lbs with
              | None => true
              | Some id => negb (truthy id)
              end
          | Some _ => false
          end
      | Some _ => false
      end
  | _ => false
  end.

(** ** Paged listings, as the remote directory serves them *)

Fixpoint as_dicts (l : list json) : option (list dict) :=
  match l with
  | [] => Some []
  | JObj d :: rest =>
      match as_dicts rest with
      | Some ds => Some (d :: ds)
      | None => None
      end
  | _ => None
  end.

(** A page: status 200, an object whose [entities] is a list of objects
    and whose [pageCount], when present, is an integer. *)
Definition page_view (r : Response) : option (list dict * Z) :=
  if status_code r =? 200 then
    match content r with
    | Some (JObj m) =>
        match lookup "entities" m with
        | Some (JArr es) =>
            match as_dicts es, lookup "pageCount" m with
            | Some ds, Some (JInt n) => Some (ds, n)
            | Some ds, None => Some (ds, 1)
            | _, _ => None
            end
        | _ => None
        end
    | _ => None
    end
  else None.

(** The entities of all pages, in page order, when [rs] are the pages
    [page], [page + 1], ... of a listing up to its last page. *)
Fixpoint listing (page : Z) (rs : list Response) : option (list dict) :=
  match rs with
  | [] => None
  | r :: rest =>
      match page_view r with
      | Some (ds, pc) =>
          if pc <=? page then
            match rest with
            | [] => Some ds
            | _ => None
            end
          else
            match listing (page + 1) rest with
            | Some more => Some (ds ++ more)
            | None => None
            end
      | None => None
      end
  end.

(** The name of an entity as text: its [name] when that is a string,
    the empty string when it is absent, null or another false value. *)
Definition name_text (d : dict) : option string :=
  match lookup "name" d with
  | Some (JStr s) => Some s
  | Some v => if truthy v then None else Some EmptyString
  | None => Some EmptyString
  end.

Definition names_are_text (ds : list dict) : bool :=
  forallb (fun d => match name_text d with Some _ => true | None => false end) ds.

(** The entity's name, trimmed and lowercased, equals [needle]. *)
Definition named (needle : string) (d : dict) : bool :=
  match name_text d with
  | Some s => String.eqb (lower (strip s)) needle
  | None => false
  end.

Definition id_of (d : dict) : json :=
  match lookup "id" d with
  | Some v => v
  | None => JNull
  end.

(** The two pages of the lookup of [_Voice]. *)
Definition scenario_skills_page1 : Response :=
  mkResponse 200
    (Some (JObj [("entities",
                  JArr [JObj [("name", JStr "Support"); ("id", JStr "sk0")]]);
                 ("pageCount", JInt 2)])).

Definition scenario_skills_page2 : Response :=
  mkResponse 200
    (Some (JObj [("entities",
                  JArr [JObj [("name", JStr "_voice"); ("id", JStr "sk1")]]);
                 ("pageCount", JInt 2)])).

(** ** Concrete directories *)

(** The configuration the script has when only the credentials are set. *)
Definition default_config : Config :=
  mkConfig (Some "client") (Some "secret")
    "WebRTC - Genesys Test User 1" "_Voice" "Nederlands"
    (Qmake 0 1) (Qmake 0 1) 8 0.

Definition tok : json := JStr "tok".

Definition alice : User := mkUser (JStr "u1") (JStr "Alice") JNull JNull JNull.

Definition bob : User := mkUser (JStr "u2") (JStr "Bob") JNull JNull JNull.

Definition ok_json (j : json) : Reply := Resp (mkResponse 200 (Some j)).

Definition status_only (status : Z) : Reply := Resp (mkResponse status None).

Definition one_page (entities : list json) : json :=
  JObj [("entities", JArr entities); ("pageCount", JInt 1)].

Definition template_phone : json :=
  JObj [("id", JStr "ph1");
        ("name", JStr "WebRTC - Genesys Test User 1");
        ("site", JObj [("id", JStr "S")]);
        ("phoneBaseSettings", JObj [("id", JStr "B")]);
        ("lines", JArr [JObj [("lineBaseSettings", JObj [("id", JStr "L")])]])].

Definition template_without_lines : json :=
  JObj [("id", JStr "ph1");
        ("name", JStr "WebRTC - Genesys Test User 1");
        ("site", JObj [("id", JStr "S")]);
        ("phoneBaseSettings", JObj [("id", JStr "B")]);
        ("lines", JArr [])].

Definition active (id name : string) : json :=
  JObj [("id", JStr id); ("name", JStr name); ("state", JStr "active")].

(** A whole run: token, skill, language, template phone and its details
    (without lines), two active users, neither with a station. *)
Definition lineless_run : World :=
  mkWorld
    [ok_json (JObj [("access_token", JStr "tok")]);
     ok_json (one_page [JObj [("name", JStr "_Voice"); ("id", JStr "sk1")]]);
     ok_json (one_page [JObj [("name", JStr "Nederlands"); ("id", JStr "lang1")]]);
     ok_json (one_page [JObj [("name", JStr "WebRTC - Genesys Test User 1");
                              ("id", JStr "ph1")]]);
     ok_json template_without_lines;
     ok_json (one_page [active "u1" "Alice"; active "u2" "Bob"]);
     ok_json (one_page []);
     ok_json (one_page [])]
    [].

Definition capped_config : Config :=
  mkConfig (Some "client") (Some "secret")
    "WebRTC - Genesys Test User 1" "_Voice" "Nederlands"
    (Qmake 0 1) (Qmake 0 1) 8 1.

(** The endpoint is created and found, the default-station PUT is
    rejected, the skill is assigned by PATCH and the language is already
    present. *)
Definition rejected_default_run : World :=
  mkWorld
    [status_only 201;
     ok_json (one_page [JObj [("id", JStr "st1")]]);
     status_only 500;
     ok_json (one_page []);
     status_only 200;
     ok_json (one_page [JObj [("id", JStr "lang1")]])]
    [].

Definition other_station : Response :=
  mkResponse 200 (Some (JObj [("station", JObj [("id", JStr "other")])])).

Definition has_sk1 : World :=
  mkWorld [ok_json (one_page [JObj [("id", JStr "sk1")]])] [].

Definition more_skills : Response :=
  mkResponse 200
    (Some (JObj [("entities", JArr [JObj [("id", JStr "sk0")]]);
                 ("pageCount", JInt 2)])).



(** ** Start of a run *)

Definition credentials_set (cfg : Config) : bool :=
  opt_truthy (CLIENT_ID cfg) && opt_truthy (CLIENT_SECRET cfg).

Definition token_request (cfg : Config) : Request :=
  mkRequest POST OAuthToken [] (Form (CLIENT_ID cfg) (CLIENT_SECRET cfg)).

(** The token endpoint gives no usable answer: the call fails, the
    status is not 200, or the body is not JSON. *)
Definition token_refused (replies : list Reply) : bool :=
  match replies with
  | Resp r :: _ =>
      negb (status_code r =? 200)
      || match content r with
         | Some _ => false
         | None => true
         end
  | _ => true
  end.

(** ** Shapes of the station state *)

Definition station_keys : list string :=
  ["defaultStationId"; "defaultStation"; "stationId";
   "associatedStationId"; "associatedStation"].

(** The field is an object whose [id] is the string [e]. *)
Definition nested_is (e : string) (v : option json) : bool :=
  match v with
  | Some (JObj d) =>
      match lookup "id" d with
      | Some (JStr s) => String.eqb e s
      | _ => false
      end
  | _ => false
  end.

(** The field is the string [e], or an object whose [id] is [e]. *)
Definition flat_or_nested_is (e : string) (v : option json) : bool :=
  match v with
  | Some (JStr s) => String.eqb e s
  | _ => nested_is e v
  end.

Definition shows_station_id (e : string) (m : dict) : bool :=
  existsb (fun k => flat_or_nested_is e (lookup k m)) station_keys
  || nested_is e (lookup "station" m).

(** ** Station lookups *)

(** What a reply to the station lookup says: [Some true], an endpoint;
    [Some false], none (a lookup that fails counts as none); [None], a
    body the script cannot read. *)
Definition station_view (r : Response) : option bool :=
  if negb (status_code r =? 200) then Some false
  else
    match safe_get_json r with
    | JObj m =>
        match lookup "entities" m with
        | None => Some false
        | Some e =>
            if truthy e then
              match e with
              | JArr (JObj _ :: _) => Some true
              | _ => None
              end
            else Some false
        end
    | _ => None
    end.

Definition stations_read (token uid : json) : Request :=
  mkRequest GET (Stations uid) (auth_headers token) NoBody.

(** The users whose lookup showed no endpoint, [bs] being what the
    lookups showed, user by user. *)
Fixpoint lacking (users : list User) (bs : list bool) : list User :=
  match users, bs with
  | u :: us, b :: bs' => if b then lacking us bs' else u :: lacking us bs'
  | _, _ => []
  end.

(** ** What the lookups look for *)

(** The phone's name, lowercased, contains the non-empty [needle]. *)
Definition name_contains (needle : string) (d : dict) : bool :=
  str_nonempty needle
  && match name_text d with
     | Some s => str_in needle (lower s)
     | None => false
     end.

(** The association is the one of the capability [cap]. *)
Definition is_capability (cap : json) (d : dict) : bool :=
  py_eq (id_of d) cap.

(** What a page of associations settles: [Some true] when it holds the
    capability. *)
Definition found_capability (cap : json) (ds : list dict) : option bool :=
  if existsb (is_capability cap) ds then Some true else None.

(** ** Listings read in part *)

(** The entities of the pages [rs], read as pages [page], [page + 1],
    ... none of which is the last of its listing. *)
Fixpoint open_listing (page : Z) (rs : list Response) : option (list dict) :=
  match rs with
  | [] => Some []
  | r :: rest =>
      match page_view r with
      | Some (ds, pc) =>
          if pc <=? page then None
          else
            match open_listing (page + 1) rest with
            | Some more => Some (ds ++ more)
            | None => None
            end
      | None => None
      end
  end.

(** ** Active users *)

Definition is_active (d : dict) : bool :=
  py_eq (match lookup "state" d with Some v => v | None => JNull end)
        (JStr "active").

Definition field (k : string) (d : dict) : json :=
  match lookup k d with
  | Some v => v
  | None => JNull
  end.

(** The user the script keeps of an entity. *)
Definition user_of (d : dict) : User :=
  mkUser (field "id" d)
         (match lookup "name" d with Some v => v | None => JStr EmptyString end)
         (field "email" d) (field "department" d) (field "title" d).

Definition actives (ds : list dict) : list User :=
  map user_of (filter is_active ds).

Definition users_read (token : json) (page : Z) : Request :=
  mkRequest GET (Users page) (auth_headers token) NoBody.

(** The test the loop makes between two pages. *)
Definition cap_reached (cfg : Config) (users : list User) : bool :=
  negb (MAX_USERS cfg =? 0)
  && (MAX_USERS cfg <=? Z.of_nat (List.length users)).

Definition skills_lookup (token : json) (page : Z) : Request :=
  mkRequest GET (RoutingSkills page) (auth_headers token) NoBody.

Definition languages_lookup (token : json) (page : Z) : Request :=
  mkRequest GET (RoutingLanguages page) (auth_headers token) NoBody.

Definition phones_lookup (token : json) (page : Z) : Request :=
  mkRequest GET (Phones page) (auth_headers token) NoBody.

(** ** Steps of the workflow *)

(** The lookup completes and shows no endpoint. *)
Definition shows_no_station (r : Response) : bool :=
  match station_view r with
  | Some false => true
  | _ => false
  end.

(** A re-read that completes and shows the expected station. *)
Definition read_hits (station_id : json) (r : Response) : bool :=
  match is_default_station_set (read_state r) station_id with
  | Ret true => true
  | _ => false
  end.

Definition default_station_put (token uid sid : json) : Request :=
  mkRequest PUT (DefaultStation uid sid) (auth_headers token) NoBody.

Definition skill_patch (token uid cap : json) (proficiency : Q) : Request :=
  mkRequest PATCH (UserRoutingSkillsBulk uid) (json_headers token)
    (Bulk cap proficiency).

Definition language_patch (token uid cap : json) (proficiency : Q) : Request :=
  mkRequest PATCH (UserRoutingLanguagesBulk uid) (json_headers token)
    (Bulk cap proficiency).

(** ** Counting requests *)

Definition meth_eqb (a b : Method) : bool :=
  match a, b with
  | GET, GET | POST, POST | PUT, PUT | PATCH, PATCH => true
  | _, _ => false
  end.

Definition count_meth (mt : Method) (l : list Request) : nat :=
  List.length (filter (fun rq => meth_eqb (meth rq) mt) l).

(** [m] adds to the log at most [p] POSTs, [u] PUTs and [a] PATCHes. *)
Definition within (p u a : nat) {A} (m : M A) : Prop :=
  forall w o w', m w = (o, w') ->
    exists l, sent w' = sent w ++ l
              /\ (count_meth POST l <= p)%nat
              /\ (count_meth PUT l <= u)%nat
              /\ (count_meth PATCH l <= a)%nat.

(** Requests that change no user and no phone: the reads and the token
    exchange. *)
Definition harmless (rq : Request) : Prop :=
  meth rq = GET \/ url rq = OAuthToken.

(** The log of [w'] is the log of [w] followed by requests that all
    satisfy [P]. *)
Definition extends (P : Request -> Prop) (w w' : World) : Prop :=
  exists l, sent w' = sent w ++ l /\ Forall P l.

(** ** Resolution *)

(** From [w0], with credentials, [run] obtains the token, resolves the
    skill, the language and the template phone and fetches the template's
    details, each being a true value, and is then in [w5]. *)
Definition resolved (cfg : Config) (w0 : World) (token sk lang tpl : json)
    (w5 : World) : Prop :=
  credentials_set cfg = true /\
  exists w1 w2 w3 w4 phone_id,
    get_access_token cfg w0 = (Ret token, w1) /\
    truthy token = true /\
    find_routing_skill_id_by_name token (TARGET_SKILL_NAME cfg) w1
      = (Ret sk, w2) /\
    truthy sk = true /\
    find_routing_language_id_by_name token (TARGET_LANGUAGE_NAME cfg) w2
      = (Ret lang, w3) /\
    truthy lang = true /\
    find_phone_id_by_name_contains token (TEMPLATE_PHONE_NAME_CONTAINS cfg) w3
      = (Ret phone_id, w4) /\
    truthy phone_id = true /\
    get_phone_details token phone_id w4 = (Ret tpl, w5) /\
    truthy tpl = true.

(** ** More concrete directories *)

Definition without_secret : Config :=
  mkConfig (Some "client") None
    "WebRTC - Genesys Test User 1" "_Voice" "Nederlands"
    (Qmake 0 1) (Qmake 0 1) 8 0.

Definition entity (id name state : string) : dict :=
  [("id", JStr id); ("name", JStr name); ("state", JStr state)].

Definition page_of (entities : list dict) (pageCount : Z) : Response :=
  mkResponse 200
    (Some (JObj [("entities", JArr (map JObj entities));
                 ("pageCount", JInt pageCount)])).

(** Two pages of users: Alice (active) and Carol (inactive), then Bob
    (active). *)
Definition users_first : Response :=
  page_of [entity "u1" "Alice" "active"; entity "u3" "Carol" "inactive"] 2.

Definition users_last : Response :=
  page_of [entity "u2" "Bob" "active"] 2.

(** A first page of two active users, with more pages to come. *)
Definition users_crowded : Response :=
  page_of [entity "u1" "Alice" "active"; entity "u2" "Bob" "active"] 2.

Definition named_entity (id name : string) : dict :=
  [("name", JStr name); ("id", JStr id)].

Definition with_station : Response :=
  mkResponse 200 (Some (one_page [JObj [("id", JStr "st1")]])).

Definition no_station : Response :=
  mkResponse 200 (Some (one_page [])).

Definition unavailable : Response := mkResponse 500 None.

Definition station_st1 : Response :=
  mkResponse 200 (Some (JObj [("station", JObj [("id", JStr "st1")])])).

(** The skill is absent and its PATCH is rejected; the language is
    absent and its PATCH is accepted. *)
Definition rejected_skill_run : World :=
  mkWorld [Resp no_station; Resp unavailable; Resp no_station; status_only 200] [].

(** [lineless_run] after the resolution, after the user fetch and after
    the scan. *)
Definition lineless_resolved : World :=
  mkWorld
    [ok_json (one_page [active "u1" "Alice"; active "u2" "Bob"]);
     ok_json (one_page []);
     ok_json (one_page [])]
    [token_request default_config; skills_lookup tok 1;
     languages_lookup tok 1; phones_lookup tok 1;
     mkRequest GET (Phone (JStr "ph1")) (auth_headers tok) NoBody].

Definition lineless_fetched : World :=
  mkWorld
    [ok_json (one_page []); ok_json (one_page [])]
    (sent lineless_resolved ++ [users_read tok 1]).

Definition lineless_scanned : World :=
  mkWorld []
    (sent lineless_fetched
     ++ [stations_read tok (JStr "u1"); stations_read tok (JStr "u2")]).

(** A run whose user fetch fails at the transport level. *)
Definition broken_fetch_run : World :=
  mkWorld
    [ok_json (JObj [("access_token", JStr "tok")]);
     ok_json (one_page [JObj [("name", JStr "_Voice"); ("id", JStr "sk1")]]);
     ok_json (one_page [JObj [("name", JStr "Nederlands"); ("id", JStr "lang1")]]);
     ok_json (one_page [JObj [("name", JStr "WebRTC - Genesys Test User 1");
                              ("id", JStr "ph1")]]);
     ok_json template_phone;
     NetErr]
    [].

Definition broken_fetch_resolved : World :=
  mkWorld [NetErr] (sent lineless_resolved).

(* ================================================================== *)
(** * Reasoning about runs *)
(* ================================================================== *)

Local Open Scope io_scope.
Local Open Scope res_scope.

Lemma bind_Ret_inv {A B} (m : M A) (k : A -> M B) w b w' :
  bind m k w = (Ret b, w') ->
  exists a w1, m w = (Ret a, w1) /\ k a w1 = (Ret b, w').
Proof.
  unfold bind. destruct (m w) as [[a|e] w1]; intros H.
  - exists a, w1. split; [reflexivity | exact H].
  - discriminate H.
Qed.

Lemma bind_Raise_inv {A B} (m : M A) (k : A -> M B) w e w' :
  bind m k w = (Raise e, w') ->
  m w = (Raise e, w') \/
  exists a w1, m w = (Ret a, w1) /\ k a w1 = (Raise e, w').
Proof.
  unfold bind. destruct (m w) as [[a|e0] w1]; intros H.
  - right. exists a, w1. split; [reflexivity | exact H].
  - left. inversion H. reflexivity.
Qed.

Lemma bind_Ret {A B} (m : M A) (k : A -> M B) w a w1 :
  m w = (Ret a, w1) -> bind m k w = k a w1.
Proof. intros H. unfold bind. rewrite H. reflexivity. Qed.

Lemma bind_Raise {A B} (m : M A) (k : A -> M B) w e w1 :
  m w = (Raise e, w1) -> bind m k w = (Raise e, w1).
Proof. intros H. unfold bind. rewrite H. reflexivity. Qed.

Lemma http_Ret_inv rq w r w' :
  http rq w = (Ret r, w') ->
  exists rest, script w = Resp r :: rest /\ w' = mkWorld rest (sent w ++ [rq]).
Proof.
  unfold http. destruct (script w) as [|[r0|] rest]; intros H; inversion H.
  exists rest. split; reflexivity.
Qed.

Lemma http_Resp rq r rest log :
  http rq (mkWorld (Resp r :: rest) log) = (Ret r, mkWorld rest (log ++ [rq])).
Proof. reflexivity. Qed.

Lemma lift_inv {A} (r : result A) w o w' :
  lift r w = (o, w') -> o = r /\ w' = w.
Proof. unfold lift. intros H. inversion H. split; reflexivity. Qed.

(** One turn of a paged loop. *)
Lemma while_get_unfold {S A} (rq : S -> Request)
    (step : S -> Response -> result (Ctl S A)) (s : S) (w : World) :
  while_get rq step s w =
  bind (http (rq s))
       (fun r => match step s r with
                 | Raise e => raise e
                 | Ret (Done a) => ret a
                 | Ret (Next s') => while_get rq step s'
                 end) w.
Proof.
  destruct w as [[|[r|] rest] log]; unfold while_get, bind, http; simpl;
    try reflexivity.
  destruct (step s r) as [[s'|a]|e]; reflexivity.
Qed.

Lemma while_get_Resp {S A} (rq : S -> Request)
    (step : S -> Response -> result (Ctl S A)) (s : S) r rest log :
  while_get rq step s (mkWorld (Resp r :: rest) log) =
  match step s r with
  | Raise e => (Raise e, mkWorld rest (log ++ [rq s]))
  | Ret (Done a) => (Ret a, mkWorld rest (log ++ [rq s]))
  | Ret (Next s') => while_get rq step s' (mkWorld rest (log ++ [rq s]))
  end.
Proof. reflexivity. Qed.

(** ** Which requests a computation sends *)

Lemma sends_ret {A} P (a : A) : sends P (ret a).
Proof.
  intros w o w' H. inversion H; subst. exists []. rewrite app_nil_r. auto.
Qed.

Lemma sends_raise {A} P e : sends P (@raise A e).
Proof.
  intros w o w' H. inversion H; subst. exists []. rewrite app_nil_r. auto.
Qed.

Lemma sends_lift {A} P (r : result A) : sends P (lift r).
Proof.
  intros w o w' H. inversion H; subst. exists []. rewrite app_nil_r. auto.
Qed.

Lemma sends_http P rq : P rq -> sends P (http rq).
Proof.
  intros HP w o w' H. unfold http in H.
  destruct (script w) as [|[r|] rest]; inversion H; subst; simpl;
    exists [rq]; auto.
Qed.

Lemma sends_bind {A B} P (m : M A) (k : A -> M B) :
  sends P m -> (forall a, sends P (k a)) -> sends P (bind m k).
Proof.
  intros Hm Hk w o w' H. unfold bind in H.
  destruct (m w) as [[a|e] w1] eqn:E.
  - destruct (Hm _ _ _ E) as [l1 [E1 F1]].
    destruct (Hk a _ _ _ H) as [l2 [E2 F2]].
    exists (l1 ++ l2). split.
    + rewrite E2, E1, app_assoc. reflexivity.
    + apply Forall_app. auto.
  - inversion H; subst. exact (Hm _ _ _ E).
Qed.

Lemma sends_while_get {S A} P (rq : S -> Request)
    (step : S -> Response -> result (Ctl S A)) :
  (forall s, P (rq s)) -> forall s, sends P (while_get rq step s).
Proof.
  intros HP s [replies log]. unfold while_get. simpl.
  revert s log.
  induction replies as [|[r|] rest IH]; intros s log o w' H; simpl in H.
  - inversion H; subst; simpl. exists [rq s]. auto.
  - destruct (step s r) as [[s'|a]|e].
    + destruct (IH _ _ _ _ H) as [l [E F]]. simpl in E.
      exists (rq s :: l). split.
      * rewrite E, <- app_assoc. reflexivity.
      * constructor; auto.
    + inversion H; subst; simpl. exists [rq s]. auto.
    + inversion H; subst; simpl. exists [rq s]. auto.
  - inversion H; subst; simpl. exists [rq s]. auto.
Qed.

(** ** Which exceptions a computation raises *)

Lemma rraises_bind {A B} (r : result A) (k : A -> result B) :
  rraises r -> (forall a, rraises (k a)) -> rraises (rbind r k).
Proof. destruct r; simpl; auto. Qed.

Lemma raises_ret {A} (a : A) : raises_Exception (ret a).
Proof. intros w e w' H. inversion H. Qed.

Lemma raises_lift {A} (r : result A) : rraises r -> raises_Exception (lift r).
Proof. intros Hr w e w' H. inversion H; subst. exact Hr. Qed.

Lemma raises_http rq : raises_Exception (http rq).
Proof.
  intros w e w' H. unfold http in H.
  destruct (script w) as [|[r|] rest]; inversion H; reflexivity.
Qed.

Lemma raises_bind {A B} (m : M A) (k : A -> M B) :
  raises_Exception m -> (forall a, raises_Exception (k a)) ->
  raises_Exception (bind m k).
Proof.
  intros Hm Hk w e w' H.
  destruct (bind_Raise_inv _ _ _ _ _ H) as [E|[a [w1 [_ E]]]].
  - exact (Hm _ _ _ E).
  - exact (Hk _ _ _ _ E).
Qed.

Lemma raises_while_get {S A} (rq : S -> Request)
    (step : S -> Response -> result (Ctl S A)) :
  (forall s r, rraises (step s r)) ->
  forall s, raises_Exception (while_get rq step s).
Proof.
  intros Hstep s [replies log]. unfold while_get. simpl.
  revert s log.
  induction replies as [|[r|] rest IH]; intros s log e w' H; simpl in H.
  - inversion H. reflexivity.
  - specialize (Hstep s r). destruct (step s r) as [[s'|a]|e0].
    + exact (IH _ _ _ _ H).
    + inversion H.
    + inversion H; subst. exact Hstep.
  - inversion H. reflexivity.
Qed.

(* ================================================================== *)
(** * Default-device setter *)
(* ================================================================== *)

Lemma get_user_station_state_Resp token uid r rest log :
  get_user_station_state token uid (mkWorld (Resp r :: rest) log) =
  (Ret (read_state r), mkWorld rest (log ++ [station_read token uid])).
Proof.
  unfold get_user_station_state, read_state, bind, http, ret. simpl.
  destruct (negb (status_code r =? 200)); reflexivity.
Qed.

Lemma verify_default_station_misses token uid sid reads :
  forallb (read_misses sid) reads = true ->
  forall rest log,
    verify_default_station token uid sid (List.length reads)
      (mkWorld (map Resp reads ++ rest) log) =
    (Ret false,
     mkWorld rest (log ++ map (fun _ => station_read token uid) reads)).
Proof.
  induction reads as [|r reads IH]; intros Hall rest log; simpl.
  - rewrite app_nil_r. reflexivity.
  - simpl in Hall. apply andb_prop in Hall. destruct Hall as [Hr Hall].
    unfold bind at 1. rewrite get_user_station_state_Resp.
    unfold read_misses in Hr. unfold bind, lift.
    destruct (is_default_station_set (read_state r) sid) as [[|]|];
      try discriminate Hr.
    rewrite (IH Hall). rewrite <- app_assoc. reflexivity.
Qed.

(** C4.  [set_default_station] returns [False] exactly when the PUT
    status is not one of 200, 202, 204: every value it returns is [False]
    iff the PUT was not accepted; a rejected PUT returns [False]; an
    accepted PUT whose re-reads (as many as
    [DEFAULT_STATION_VERIFY_RETRIES]) all complete without showing the
    expected station id returns [True]; and after an accepted PUT the
    only other way out is an exception of a re-read. *)
Theorem set_default_station_status (cfg : Config) (token uid sid : json) :
  (forall w b w',
      set_default_station cfg token uid sid w = (Ret b, w') ->
      exists r rest,
        script w = Resp r :: rest /\
        (b = false <-> put_accepted (status_code r) = false))
  /\ (forall r rest log,
         put_accepted (status_code r) = false ->
         fst (set_default_station cfg token uid sid
                (mkWorld (Resp r :: rest) log)) = Ret false)
  /\ (forall r reads rest log,
         put_accepted (status_code r) = true ->
         List.length reads = range1 (DEFAULT_STATION_VERIFY_RETRIES cfg) ->
         forallb (read_misses sid) reads = true ->
         fst (set_default_station cfg token uid sid
                (mkWorld (Resp r :: map Resp reads ++ rest) log)) = Ret true)
  /\ (forall r rest log,
         put_accepted (status_code r) = true ->
         fst (set_default_station cfg token uid sid
                (mkWorld (Resp r :: rest) log)) = Ret true
         \/ exists e,
             fst (set_default_station cfg token uid sid
                    (mkWorld (Resp r :: rest) log)) = Raise e).
Proof.
  assert (Hret : forall w b w',
             set_default_station cfg token uid sid w = (Ret b, w') ->
             exists r rest,
               script w = Resp r :: rest /\
               (b = false <-> put_accepted (status_code r) = false));
    [|split; [exact Hret|split; [|split]]].
  - intros w b w' H. unfold set_default_station in H.
    apply bind_Ret_inv in H. destruct H as [r [w1 [Hput H]]].
    apply http_Ret_inv in Hput. destruct Hput as [rest [Hs _]].
    exists r, rest. split; [exact Hs|]. split.
    + intros Hb. subst b.
      destruct (put_accepted (status_code r)); [|reflexivity].
      simpl in H. apply bind_Ret_inv in H. destruct H as [v [w2 [_ H]]].
      destruct v; inversion H.
    + intros Hacc. rewrite Hacc in H. simpl in H. inversion H. reflexivity.
  - intros r rest log Hacc. unfold set_default_station, bind.
    rewrite http_Resp, Hacc. reflexivity.
  - intros r reads rest log Hacc Hlen Hmiss.
    unfold set_default_station, bind.
    rewrite http_Resp, Hacc. cbn [negb]. cbv beta iota.
    rewrite <- Hlen, (verify_default_station_misses _ _ _ _ Hmiss).
    reflexivity.
  - intros r rest log Hacc.
    destruct (set_default_station cfg token uid sid
                (mkWorld (Resp r :: rest) log)) as [[b|e] w'] eqn:E.
    + left. destruct (Hret _ _ _ E) as [r' [rest' [Hs Hb]]].
      simpl in Hs. inversion Hs; subst r' rest'.
      destruct b; [reflexivity|].
      rewrite (proj1 Hb eq_refl) in Hacc. discriminate Hacc.
    + right. exists e. reflexivity.
Qed.

(* ================================================================== *)
(** * Skill/language assigner *)
(* ================================================================== *)

Lemma mutations_reads log l :
  Forall (fun rq => meth rq = GET) l -> mutations (log ++ l) = mutations log.
Proof.
  intros H. unfold mutations. rewrite filter_app.
  replace (filter mutating l) with (@nil Request).
  - apply app_nil_r.
  - induction H as [|rq l Hrq _ IH]; simpl; [reflexivity|].
    unfold mutating at 1. rewrite Hrq. exact IH.
Qed.

Lemma user_has_skill_reads token uid cap :
  sends (fun rq => meth rq = GET) (user_has_skill token uid cap).
Proof. apply sends_while_get. reflexivity. Qed.

Lemma user_has_language_reads token uid cap :
  sends (fun rq => meth rq = GET) (user_has_language token uid cap).
Proof. apply sends_while_get. reflexivity. Qed.

(** C8.  When the membership check reports the capability present,
    [ensure_user_skill] and [ensure_user_language] return [True] in the
    world the check left: the requests sent are the check's GETs, no
    PATCH (no mutating request at all) is added to the log. *)
Theorem ensure_capability_present_no_mutation
    (token : json) (user : User) (cap : json) (proficiency : Q)
    (w w1 : World) :
  (user_has_skill token (ID user) cap w = (Ret true, w1) ->
   ensure_user_skill token user cap proficiency w = (Ret true, w1)
   /\ mutations (sent w1) = mutations (sent w)
   /\ exists reads, sent w1 = sent w ++ reads
                    /\ Forall (fun rq => meth rq = GET) reads)
  /\ (user_has_language token (ID user) cap w = (Ret true, w1) ->
      ensure_user_language token user cap proficiency w = (Ret true, w1)
      /\ mutations (sent w1) = mutations (sent w)
      /\ exists reads, sent w1 = sent w ++ reads
                       /\ Forall (fun rq => meth rq = GET) reads).
Proof.
  split; intros H.
  - split; [|split].
    + unfold ensure_user_skill. rewrite (bind_Ret _ _ _ _ _ H). reflexivity.
    + destruct (user_has_skill_reads _ _ _ _ _ _ H) as [l [E F]].
      rewrite E. apply mutations_reads. exact F.
    + exact (user_has_skill_reads _ _ _ _ _ _ H).
  - split; [|split].
    + unfold ensure_user_language. rewrite (bind_Ret _ _ _ _ _ H). reflexivity.
    + destruct (user_has_language_reads _ _ _ _ _ _ H) as [l [E F]].
      rewrite E. apply mutations_reads. exact F.
    + exact (user_has_language_reads _ _ _ _ _ _ H).
Qed.

Lemma page_requests_snoc rq n : forall page,
  page_requests rq page (S n) =
  page_requests rq page n ++ [rq (page + Z.of_nat n)].
Proof.
  induction n as [|n IH]; intros page.
  - simpl. rewrite Z.add_0_r. reflexivity.
  - change (page_requests rq page (S (S n)))
      with (rq page :: page_requests rq (page + 1) (S n)).
    rewrite IH.
    replace (page + Z.of_nat (S n)) with (page + 1 + Z.of_nat n) by lia.
    reflexivity.
Qed.

Lemma while_get_pages_continue {A} (rq : Z -> Request)
    (step : Z -> Response -> result (Ctl Z A)) pages :
  forall page rest log,
    pages_continue step page pages = true ->
    while_get rq step page (mkWorld (map Resp pages ++ rest) log) =
    while_get rq step (page + Z.of_nat (List.length pages))
      (mkWorld rest (log ++ page_requests rq page (List.length pages))).
Proof.
  induction pages as [|r pages IH]; intros page rest log H.
  - simpl. rewrite Z.add_0_r, app_nil_r. reflexivity.
  - simpl in H. simpl map. simpl app. rewrite while_get_Resp.
    destruct (step page r) as [[p|a]|e]; try discriminate H.
    apply andb_prop in H. destruct H as [Hp H].
    apply Z.eqb_eq in Hp. subst p.
    rewrite (IH _ _ _ H). simpl List.length. simpl page_requests.
    rewrite <- app_assoc. simpl app.
    replace (page + 1 + Z.of_nat (List.length pages))
      with (page + Z.of_nat (S (List.length pages))) by lia.
    reflexivity.
Qed.

(** C10.  A page of the user's skill (language) associations that
    answers with a status other than 200, after any number of pages the
    check read through, makes [user_has_skill] ([user_has_language])
    return [False]; [ensure_user_skill] ([ensure_user_language]) then
    sends the bulk PATCH as its next request and returns whether that
    PATCH was accepted. *)
Theorem failed_membership_fetch_patches
    (token : json) (user : User) (cap : json) (proficiency : Q)
    (pages : list Response) (bad p : Response) (rest : list Reply)
    (log : list Request) :
  (status_code bad =? 200) = false ->
  let w := mkWorld (map Resp pages ++ Resp bad :: Resp p :: rest) log in
  (pages_continue (user_skills_page cap) 1 pages = true ->
   let log1 := log ++ page_requests (skills_read token (ID user)) 1
                        (S (List.length pages)) in
   user_has_skill token (ID user) cap w
     = (Ret false, mkWorld (Resp p :: rest) log1)
   /\ ensure_user_skill token user cap proficiency w
     = (Ret (patch_accepted (status_code p)),
        mkWorld rest
          (log1 ++ [mkRequest PATCH (UserRoutingSkillsBulk (ID user))
                      (json_headers token) (Bulk cap proficiency)])))
  /\ (pages_continue (user_languages_page cap) 1 pages = true ->
      let log1 := log ++ page_requests (languages_read token (ID user)) 1
                           (S (List.length pages)) in
      user_has_language token (ID user) cap w
        = (Ret false, mkWorld (Resp p :: rest) log1)
      /\ ensure_user_language token user cap proficiency w
        = (Ret (patch_accepted (status_code p)),
           mkWorld rest
             (log1 ++ [mkRequest PATCH (UserRoutingLanguagesBulk (ID user))
                         (json_headers token) (Bulk cap proficiency)]))).
Proof.
  intros Hbad w. split; intros Hpages log1.
  - assert (Hhas : user_has_skill token (ID user) cap w
                   = (Ret false, mkWorld (Resp p :: rest) log1)).
    { unfold user_has_skill, w.
      rewrite (while_get_pages_continue _ _ _ _ _ _ Hpages).
      rewrite while_get_Resp. unfold user_skills_page at 1.
      rewrite Hbad. simpl negb. cbv iota.
      unfold log1. rewrite page_requests_snoc, app_assoc. reflexivity. }
    split; [exact Hhas|].
    unfold ensure_user_skill. rewrite (bind_Ret _ _ _ _ _ Hhas).
    unfold bind. rewrite http_Resp.
    destruct (patch_accepted (status_code p)); reflexivity.
  - assert (Hhas : user_has_language token (ID user) cap w
                   = (Ret false, mkWorld (Resp p :: rest) log1)).
    { unfold user_has_language, w.
      rewrite (while_get_pages_continue _ _ _ _ _ _ Hpages).
      rewrite while_get_Resp. unfold user_languages_page at 1.
      rewrite Hbad. simpl negb. cbv iota.
      unfold log1. rewrite page_requests_snoc, app_assoc. reflexivity. }
    split; [exact Hhas|].
    unfold ensure_user_language. rewrite (bind_Ret _ _ _ _ _ Hhas).
    unfold bind. rewrite http_Resp.
    destruct (patch_accepted (status_code p)); reflexivity.
Qed.

(* ================================================================== *)
(** * Per-user workflow *)
(* ================================================================== *)

Lemma ensure_user_skill_and_language_true cfg token user sk lang w w' :
  ensure_user_skill_and_language cfg token user sk lang w = (Ret true, w') <->
  exists w2,
    ensure_user_skill token user sk (TARGET_SKILL_PROFICIENCY cfg) w
      = (Ret true, w2) /\
    ensure_user_language token user lang (TARGET_LANGUAGE_PROFICIENCY cfg) w2
      = (Ret true, w').
Proof.
  unfold ensure_user_skill_and_language. split.
  - intros H. apply bind_Ret_inv in H. destruct H as [ok1 [w2 [H1 H]]].
    apply bind_Ret_inv in H. destruct H as [ok2 [w3 [H2 H]]].
    inversion H; subst. apply andb_prop in H3. destruct H3; subst.
    exists w2. split; assumption.
  - intros [w2 [H1 H2]].
    rewrite (bind_Ret _ _ _ _ _ H1), (bind_Ret _ _ _ _ _ H2). reflexivity.
Qed.

Lemma create_webrtc_phone_created cfg token user tpl sk lang payload r rest log :
  build_payload_from_template tpl user = Ret payload ->
  post_created (status_code r) = true ->
  create_webrtc_phone_for_user cfg token user tpl sk lang
    (mkWorld (Resp r :: rest) log) =
  bind (await_station cfg token user 6)
       (fun _ => ensure_user_skill_and_language cfg token user sk lang)
       (mkWorld rest (log ++ [create_request token payload])).
Proof.
  intros Hp Hc. unfold create_webrtc_phone_for_user.
  rewrite Hp. unfold bind at 1, lift. unfold bind at 1.
  rewrite http_Resp, Hc. reflexivity.
Qed.

(** C1.  The value [create_webrtc_phone_for_user] returns is [True]
    exactly when the endpoint POST answered 200 or 201 and, after the
    station phase, the skill assignment and then the language assignment
    each returned [True].  The station phase only hands on a world: once
    the POST succeeded the workflow's result is the result of
    [ensure_user_skill_and_language], and the phase completes whatever
    [set_default_station] returned. *)
Theorem create_webrtc_phone_result
    (cfg : Config) (token : json) (user : User) (tpl sk lang : json) :
  (forall w b w',
      create_webrtc_phone_for_user cfg token user tpl sk lang w = (Ret b, w') ->
      exists payload r rest,
        build_payload_from_template tpl user = Ret payload /\
        script w = Resp r :: rest /\
        (b = true <->
         post_created (status_code r) = true /\
         exists w1 w2,
           await_station cfg token user 6
             (mkWorld rest (sent w ++ [create_request token payload]))
             = (Ret tt, w1) /\
           ensure_user_skill token user sk (TARGET_SKILL_PROFICIENCY cfg) w1
             = (Ret true, w2) /\
           ensure_user_language token user lang
             (TARGET_LANGUAGE_PROFICIENCY cfg) w2 = (Ret true, w')))
  /\ (forall payload r rest log w1,
         build_payload_from_template tpl user = Ret payload ->
         post_created (status_code r) = true ->
         await_station cfg token user 6
           (mkWorld rest (log ++ [create_request token payload])) = (Ret tt, w1) ->
         create_webrtc_phone_for_user cfg token user tpl sk lang
           (mkWorld (Resp r :: rest) log)
         = ensure_user_skill_and_language cfg token user sk lang w1)
  /\ (forall n sid d w0 w1 w2,
         get_webrtc_station_for_user token (ID user) w0 = (Ret (true, sid), w1) ->
         truthy sid = true ->
         set_default_station cfg token (ID user) sid w1 = (Ret d, w2) ->
         await_station cfg token user (S n) w0 = (Ret tt, w2)).
Proof.
  split; [|split].
  - intros [replies log] b w' H.
    unfold create_webrtc_phone_for_user in H.
    apply bind_Ret_inv in H. destruct H as [payload [w0 [Hp H]]].
    apply lift_inv in Hp. destruct Hp as [Hp ?]; subst w0.
    apply bind_Ret_inv in H. destruct H as [r [w0 [Hpost H]]].
    apply http_Ret_inv in Hpost. destruct Hpost as [rest [Hs ?]]; subst w0.
    simpl in Hs. subst replies.
    exists payload, r, rest. split; [symmetry; exact Hp|].
    split; [reflexivity|]. simpl sent in *.
    destruct (post_created (status_code r)) eqn:Hc; cbn [negb] in H.
    + apply bind_Ret_inv in H. destruct H as [[] [w1 [Ha H]]].
      split.
      * intros ->. split; [reflexivity|].
        apply ensure_user_skill_and_language_true in H.
        destruct H as [w2 [H1 H2]]. exists w1, w2. auto.
      * intros [_ [w1' [w2 [Ha' [H1 H2]]]]].
        unfold create_request in Ha'. rewrite Ha in Ha'.
        inversion Ha'; subst w1'.
        assert (E : ensure_user_skill_and_language cfg token user sk lang w1
                    = (Ret true, w')).
        { apply ensure_user_skill_and_language_true. exists w2. auto. }
        rewrite E in H. inversion H. reflexivity.
    + inversion H; subst. split; [discriminate|].
      intros [Hf _]. discriminate Hf.
  - intros payload r rest log w1 Hp Hc Ha.
    rewrite (create_webrtc_phone_created _ _ _ _ _ _ _ _ _ _ Hp Hc).
    rewrite (bind_Ret _ _ _ _ _ Ha). reflexivity.
  - intros n sid d w0 w1 w2 Hg Ht Hs. simpl.
    rewrite (bind_Ret _ _ _ _ _ Hg). rewrite Ht. simpl.
    rewrite (bind_Ret _ _ _ _ _ Hs). reflexivity.
Qed.

(* ------------------------------------------------------------------ *)
(** ** The workflow raises nothing that [except Exception] lets through *)
(* ------------------------------------------------------------------ *)

Lemma rraises_py_get v k d : rraises (py_get v k d).
Proof. destruct v; exact I || reflexivity. Qed.

Lemma rraises_py_getitem v k : rraises (py_getitem v k).
Proof.
  destruct v; try reflexivity. simpl. destruct (lookup k fields); exact I || reflexivity.
Qed.

Lemma rraises_py_index0 v : rraises (py_index0 v).
Proof.
  destruct v as [| | |s|l|m]; try reflexivity.
  - destruct s; exact I || reflexivity.
  - destruct l; exact I || reflexivity.
Qed.

Lemma rraises_py_iter v : rraises (py_iter v).
Proof. destruct v; exact I || reflexivity. Qed.

Lemma rraises_py_ge_int n v : rraises (py_ge_int n v).
Proof. destruct v; exact I || reflexivity. Qed.

Lemma rraises_py_lower v : rraises (py_lower v).
Proof. destruct v; exact I || reflexivity. Qed.

Lemma rraises_py_strip v : rraises (py_strip v).
Proof. destruct v; exact I || reflexivity. Qed.

Create HintDb raises.

#[local] Hint Resolve rraises_py_get rraises_py_getitem rraises_py_index0
  rraises_py_iter rraises_py_ge_int rraises_py_lower rraises_py_strip
  : raises.

Ltac rraises_step :=
  match goal with
  | |- True => exact I
  | |- is_Exception _ = true => reflexivity
  | |- rraises (rbind _ _) => apply rraises_bind; [|intros ?]
  | |- rraises (Ret _) => exact I
  | |- rraises (Raise _) => reflexivity
  | |- rraises (if ?b then _ else _) => destruct b
  | |- rraises (match ?x with _ => _ end) => destruct x
  | |- rraises _ => solve [auto with raises]
  end.

Ltac rraises_auto := repeat rraises_step.

Lemma rraises_any_id x entities : rraises (any_id x entities).
Proof. induction entities; simpl; rraises_auto. Qed.

Lemma rraises_probe state keys : rraises (probe state keys).
Proof. induction keys; simpl; rraises_auto. Qed.

#[local] Hint Resolve rraises_any_id rraises_probe : raises.

Lemma rraises_is_default_station_set state expected :
  rraises (is_default_station_set state expected).
Proof. unfold is_default_station_set. rraises_auto. Qed.

Lemma rraises_build_payload_from_template tpl user :
  rraises (build_payload_from_template tpl user).
Proof. unfold build_payload_from_template. rraises_auto. Qed.

Lemma rraises_user_skills_page cap page r : rraises (user_skills_page cap page r).
Proof. unfold user_skills_page. rraises_auto. Qed.

Lemma rraises_user_languages_page cap page r :
  rraises (user_languages_page cap page r).
Proof. unfold user_languages_page. rraises_auto. Qed.

#[local] Hint Resolve rraises_is_default_station_set
  rraises_build_payload_from_template rraises_user_skills_page
  rraises_user_languages_page : raises.

Ltac raises_step :=
  match goal with
  | |- raises_Exception (bind _ _) => apply raises_bind; [|intros ?]
  | |- raises_Exception (ret _) => apply raises_ret
  | |- raises_Exception (lift _) => apply raises_lift; rraises_auto
  | |- raises_Exception (http _) => apply raises_http
  | |- raises_Exception (while_get _ _ _) =>
      apply raises_while_get; intros; rraises_auto
  | |- raises_Exception (if ?b then _ else _) => destruct b
  | |- raises_Exception (match ?x with _ => _ end) => destruct x
  | |- raises_Exception _ => solve [auto with raises]
  end.

Ltac raises_auto := repeat raises_step.

Lemma raises_get_webrtc_station_for_user token uid :
  raises_Exception (get_webrtc_station_for_user token uid).
Proof. unfold get_webrtc_station_for_user. raises_auto. Qed.

Lemma raises_get_user_station_state token uid :
  raises_Exception (get_user_station_state token uid).
Proof. unfold get_user_station_state. raises_auto. Qed.

#[local] Hint Resolve raises_get_webrtc_station_for_user
  raises_get_user_station_state : raises.

Lemma raises_verify_default_station token uid sid n :
  raises_Exception (verify_default_station token uid sid n).
Proof. induction n; simpl; raises_auto. Qed.

#[local] Hint Resolve raises_verify_default_station : raises.

Lemma raises_set_default_station cfg token uid sid :
  raises_Exception (set_default_station cfg token uid sid).
Proof. unfold set_default_station. raises_auto. Qed.

#[local] Hint Resolve raises_set_default_station : raises.

Lemma raises_await_station cfg token user n :
  raises_Exception (await_station cfg token user n).
Proof. induction n; simpl; raises_auto. Qed.

Lemma raises_ensure_user_skill token user cap q :
  raises_Exception (ensure_user_skill token user cap q).
Proof. unfold ensure_user_skill, user_has_skill. raises_auto. Qed.

Lemma raises_ensure_user_language token user cap q :
  raises_Exception (ensure_user_language token user cap q).
Proof. unfold ensure_user_language, user_has_language. raises_auto. Qed.

#[local] Hint Resolve raises_await_station raises_ensure_user_skill
  raises_ensure_user_language : raises.

Lemma raises_create_webrtc_phone_for_user cfg token user tpl sk lang :
  raises_Exception (create_webrtc_phone_for_user cfg token user tpl sk lang).
Proof.
  unfold create_webrtc_phone_for_user, ensure_user_skill_and_language.
  raises_auto.
Qed.

(* ================================================================== *)
(** * Batch orchestrator *)
(* ================================================================== *)

Lemma tally_cons p o os :
  tally p (o :: os) = (if p o then 1 else 0) + tally p os.
Proof.
  unfold tally. simpl. destruct (p o); simpl List.length; lia.
Qed.

Lemma provision_step cfg token u rest tpl sk lang ok fail w :
  provision cfg token (u :: rest) tpl sk lang ok fail w =
  let (o, w1) := create_webrtc_phone_for_user cfg token u tpl sk lang w in
  provision cfg token rest tpl sk lang
    (ok + (if succeeded o then 1 else 0))
    (fail + (if failed o then 1 else 0)) w1.
Proof.
  simpl. unfold bind, try_except_Exception, ret.
  destruct (create_webrtc_phone_for_user cfg token u tpl sk lang w)
    as [[[|]|e] w1] eqn:E; simpl.
  - rewrite !Z.add_0_r. reflexivity.
  - rewrite !Z.add_0_r. reflexivity.
  - rewrite (raises_create_webrtc_phone_for_user _ _ _ _ _ _ _ _ _ E).
    simpl. rewrite !Z.add_0_r. reflexivity.
Qed.

Lemma provision_outcomes cfg token tpl sk lang users :
  forall ok fail w,
    provision cfg token users tpl sk lang ok fail w =
    (Ret (ok + tally succeeded (fst (workflow_outcomes cfg token users tpl sk lang w)),
          fail + tally failed (fst (workflow_outcomes cfg token users tpl sk lang w))),
     snd (workflow_outcomes cfg token users tpl sk lang w)).
Proof.
  induction users as [|u rest IH]; intros ok fail w.
  - simpl. unfold tally. simpl. rewrite !Z.add_0_r. reflexivity.
  - rewrite provision_step. simpl workflow_outcomes.
    destruct (create_webrtc_phone_for_user cfg token u tpl sk lang w) as [o w1].
    rewrite IH.
    destruct (workflow_outcomes cfg token rest tpl sk lang w1) as [os w2].
    simpl fst. simpl snd. rewrite !tally_cons.
    rewrite !Z.add_assoc. reflexivity.
Qed.

Lemma workflow_outcomes_length cfg token tpl sk lang users :
  forall w,
    List.length (fst (workflow_outcomes cfg token users tpl sk lang w))
    = List.length users.
Proof.
  induction users as [|u rest IH]; intros w; simpl; [reflexivity|].
  destruct (create_webrtc_phone_for_user cfg token u tpl sk lang w) as [o w1].
  specialize (IH w1).
  destruct (workflow_outcomes cfg token rest tpl sk lang w1) as [os w2].
  simpl in *. rewrite IH. reflexivity.
Qed.

Lemma tally_total os :
  tally succeeded os + tally failed os = Z.of_nat (List.length os).
Proof.
  induction os as [|o os IH]; [reflexivity|].
  rewrite !tally_cons. simpl List.length.
  destruct o as [[|]|e]; cbn [succeeded failed]; lia.
Qed.

Lemma workflow_outcomes_app cfg token tpl sk lang us1 :
  forall us2 w,
    workflow_outcomes cfg token (us1 ++ us2) tpl sk lang w =
    let (os1, w1) := workflow_outcomes cfg token us1 tpl sk lang w in
    let (os2, w2) := workflow_outcomes cfg token us2 tpl sk lang w1 in
    (os1 ++ os2, w2).
Proof.
  induction us1 as [|u rest IH]; intros us2 w; simpl.
  - destruct (workflow_outcomes cfg token us2 tpl sk lang w). reflexivity.
  - destruct (create_webrtc_phone_for_user cfg token u tpl sk lang w) as [o w1].
    rewrite IH.
    destruct (workflow_outcomes cfg token rest tpl sk lang w1) as [os1 w2].
    destruct (workflow_outcomes cfg token us2 tpl sk lang w2) as [os2 w3].
    reflexivity.
Qed.

Lemma run_tally cfg w ok fail total w' :
  run cfg w = (Ret (Some (ok, fail, total)), w') -> ok + fail = total.
Proof.
  unfold run. intros H.
  repeat match type of H with
  | bind _ _ _ = (Ret _, _) =>
      let a := fresh "a" in let w1 := fresh "w" in let E := fresh "E" in
      apply bind_Ret_inv in H; destruct H as [a [w1 [E H]]]
  | (if ?b then _ else _) _ = (Ret _, _) => destruct b; [discriminate H|]
  end.
  match type of E7 with
  | provision ?c ?t ?us ?tp ?s ?l 0 0 ?w0 = _ =>
      pose proof (provision_outcomes c t tp s l us 0 0 w0) as HP;
      pose proof (workflow_outcomes_length c t tp s l us w0) as HL;
      pose proof (tally_total (fst (workflow_outcomes c t us tp s l w0))) as HT;
      remember (workflow_outcomes c t us tp s l w0) as wo;
      remember (List.length us) as n
  end.
  rewrite HP in E7. destruct a7 as [ok' fail']. unfold ret in H.
  injection E7 as E7a E7b _. injection H as Hok Hfail Htotal _.
  lia.
Qed.

(** C3.  Over every sequence of users the creation loop runs to its end
    and never raises: it returns the counters raised by one per user,
    [ok] for each workflow that returned [True] and [fail] for each that
    returned [False] or raised, every user's workflow being run in the
    world its predecessors left.  So [ok + fail] grows by the number of
    users, the loop over a list followed by another is the loop over the
    first followed by the loop over the second, and the tally [run]
    reports satisfies [ok + fail = total]. *)
Theorem batch_failure_isolation
    (cfg : Config) (token : json) (tpl sk lang : json) (users : list User)
    (ok fail : Z) (w : World) :
  let os := fst (workflow_outcomes cfg token users tpl sk lang w) in
  provision cfg token users tpl sk lang ok fail w
    = (Ret (ok + tally succeeded os, fail + tally failed os),
       snd (workflow_outcomes cfg token users tpl sk lang w))
  /\ List.length os = List.length users
  /\ tally succeeded os + tally failed os = Z.of_nat (List.length users)
  /\ (forall us1 u us2,
         users = us1 ++ u :: us2 ->
         nth_error os (List.length us1)
         = Some (fst (create_webrtc_phone_for_user cfg token u tpl sk lang
                        (snd (workflow_outcomes cfg token us1 tpl sk lang w)))))
  /\ (forall w0 ok0 fail0 total w',
         run cfg w0 = (Ret (Some (ok0, fail0, total)), w') ->
         ok0 + fail0 = total).
Proof.
  intros os. split; [|split; [|split; [|split]]].
  - apply provision_outcomes.
  - apply workflow_outcomes_length.
  - unfold os. rewrite tally_total, workflow_outcomes_length. reflexivity.
  - intros us1 u us2 ->. unfold os. rewrite workflow_outcomes_app.
    pose proof (workflow_outcomes_length cfg token tpl sk lang us1 w) as Hl.
    destruct (workflow_outcomes cfg token us1 tpl sk lang w) as [os1 w1].
    simpl in Hl. simpl workflow_outcomes. cbn [snd].
    destruct (create_webrtc_phone_for_user cfg token u tpl sk lang w1) as [o w2].
    destruct (workflow_outcomes cfg token us2 tpl sk lang w2) as [os2 w3].
    simpl fst. simpl snd. rewrite <- Hl.
    rewrite nth_error_app2 by lia. rewrite Nat.sub_diag. reflexivity.
  - intros w0 ok0 fail0 total w'. apply run_tally.
Qed.

(* ================================================================== *)
(** * Creation payload *)
(* ================================================================== *)

(** C7.  A template with site id [S], phoneBaseSettings id [B] and a
    first line whose lineBaseSettings id is [L] (an id, so a true value)
    gives, for the user with id [uid] and name [nm], exactly the payload
    named after the user, on the template's site and base settings, owned
    by the user, with one line on [L]; for id [u1] and name [Alice] the
    name is [WebRTC - Alice]. *)
Theorem build_payload_from_template_payload
    (m site pbs line lbs : dict) (more : list json) (S B L : json)
    (user : User) (uid : json) (nm : string) :
  lookup "site" m = Some (JObj site) ->
  lookup "id" site = Some S ->
  lookup "phoneBaseSettings" m = Some (JObj pbs) ->
  lookup "id" pbs = Some B ->
  lookup "lines" m = Some (JArr (JObj line :: more)) ->
  lookup "lineBaseSettings" line = Some (JObj lbs) ->
  lookup "id" lbs = Some L ->
  truthy L = true ->
  ID user = uid ->
  Naam user = JStr nm ->
  build_payload_from_template (JObj m) user =
  Ret (JObj
    [("name", JStr ("WebRTC - " ++ nm)%string);
     ("site", JObj [("id", S)]);
     ("phoneBaseSettings", JObj [("id", B)]);
     ("webRtcUser", JObj [("id", uid)]);
     ("lines", JArr [JObj [("lineBaseSettings", JObj [("id", L)])]])]).
Proof.
  intros Hsite HS Hpbs HB Hlines Hlbs HL HtL Hid Hnm.
  unfold build_payload_from_template, py_getitem, py_get, rbind.
  rewrite Hsite, HS, Hpbs, HB, Hlines. cbn [py_or truthy negb py_index0].
  rewrite Hlbs.
  assert (Hl : py_or (JObj lbs) (JObj []) = JObj lbs).
  { unfold py_or. destruct lbs; [discriminate HL | reflexivity]. }
  rewrite Hl, HL, HtL, Hid, Hnm. reflexivity.
Qed.

(* ================================================================== *)
(** * Template without line settings *)
(* ================================================================== *)

Lemma build_payload_lacks_line_settings tpl user :
  lacks_line_settings tpl = true ->
  exists e, build_payload_from_template tpl user = Raise e.
Proof.
  destruct tpl as [| | | | |m]; try discriminate.
  cbn [lacks_line_settings]. intros H.
  unfold build_payload_from_template. cbn [py_getitem py_get].
  destruct (lookup "site" m) as [site|]; cbn [rbind]; [|eauto].
  destruct (py_getitem site "id") as [sid|e]; cbn [rbind]; [|eauto].
  destruct (lookup "phoneBaseSettings" m) as [pbs|]; cbn [rbind]; [|eauto].
  destruct (py_getitem pbs "id") as [bid|e]; cbn [rbind]; [|eauto].
  destruct (lookup "lines" m) as [[| | | |[|[| | | | |line] more]|]|];
    try discriminate H; cbn [py_or truthy negb py_index0 rbind py_get];
    eauto.
  destruct (lookup "lineBaseSettings" line) as [[| | | | |lbs]|];
    try discriminate H; cbn [py_or truthy negb py_get lookup rbind]; eauto.
  destruct lbs as [|kv lbs'].
  - cbn [py_or py_get lookup rbind negb truthy]. eauto.
  - cbn [py_or py_get rbind negb truthy].
    destruct (lookup "id" (kv :: lbs')) as [id|];
      cbn [rbind negb truthy]; eauto.
    rewrite H. eauto.
Qed.

Lemma create_webrtc_phone_no_payload cfg token user tpl sk lang e w :
  build_payload_from_template tpl user = Raise e ->
  create_webrtc_phone_for_user cfg token user tpl sk lang w = (Raise e, w).
Proof.
  intros H. unfold create_webrtc_phone_for_user. rewrite H. reflexivity.
Qed.

(** C2, as the code has it.  A template without line settings makes
    [build_payload_from_template] raise for every user, before any
    request of the workflow; the creation loop is not stopped by it: it
    counts every user of the batch as a failure and sends nothing, so no
    user is mutated. *)
Theorem missing_lines_fails_every_user
    (cfg : Config) (token tpl sk lang : json) :
  lacks_line_settings tpl = true ->
  (forall user, exists e, build_payload_from_template tpl user = Raise e)
  /\ (forall user w, exists e,
         create_webrtc_phone_for_user cfg token user tpl sk lang w = (Raise e, w))
  /\ (forall users ok fail w,
         provision cfg token users tpl sk lang ok fail w
         = (Ret (ok, fail + Z.of_nat (List.length users)), w)).
Proof.
  intros H. split; [|split].
  - intros user. apply build_payload_lacks_line_settings. exact H.
  - intros user w.
    destruct (build_payload_lacks_line_settings tpl user H) as [e He].
    exists e. apply create_webrtc_phone_no_payload. exact He.
  - induction users as [|u rest IH]; intros ok fail w.
    + simpl. rewrite Z.add_0_r. reflexivity.
    + rewrite provision_step.
      destruct (build_payload_lacks_line_settings tpl u H) as [e He].
      rewrite (create_webrtc_phone_no_payload _ _ _ _ _ _ _ w He).
      cbn [succeeded failed]. rewrite IH, Z.add_0_r.
      do 2 f_equal. f_equal. simpl List.length. lia.
Qed.

(* ================================================================== *)
(** * Resource resolvers *)
(* ================================================================== *)

Lemma find_app {A} (f : A -> bool) (l1 l2 : list A) :
  find f (l1 ++ l2) =
  match find f l1 with
  | Some x => Some x
  | None => find f l2
  end.
Proof.
  induction l1 as [|a l1 IH]; simpl; [reflexivity|].
  destruct (f a); [reflexivity | exact IH].
Qed.

Lemma py_or_name_text d s :
  name_text d = Some s ->
  py_or (match lookup "name" d with Some x => x | None => JNull end)
        (JStr EmptyString) = JStr s.
Proof.
  unfold name_text, py_or.
  destruct (lookup "name" d) as [[|b|n|t|l|m]|]; simpl.
  - intros H; inversion H; reflexivity.
  - destruct b; intros H; inversion H; reflexivity.
  - destruct (negb (n =? 0)); intros H; inversion H; reflexivity.
  - intros H; inversion H; subst. destruct s; reflexivity.
  - destruct l; intros H; inversion H; reflexivity.
  - destruct m; intros H; inversion H; reflexivity.
  - intros H; inversion H; reflexivity.
Qed.

Lemma scan_names_dicts needle ds :
  names_are_text ds = true ->
  scan_names needle (map JObj ds) =
  Ret (match find (named needle) ds with
       | Some d => Some (id_of d)
       | None => None
       end).
Proof.
  induction ds as [|d ds IH]; intros H; [reflexivity|].
  simpl in H. apply andb_prop in H. destruct H as [Hd H].
  cbn [map scan_names py_get rbind find]. unfold named at 1.
  destruct (name_text d) as [s|] eqn:E; [|discriminate Hd].
  rewrite (py_or_name_text _ _ E). cbn [py_strip rbind].
  destruct (String.eqb (lower (strip s)) needle); [reflexivity|].
  apply IH. exact H.
Qed.

Lemma as_dicts_map es ds : as_dicts es = Some ds -> es = map JObj ds.
Proof.
  revert ds. induction es as [|e es IH]; intros ds H; simpl in H.
  - inversion H. reflexivity.
  - destruct e; try discriminate H.
    destruct (as_dicts es) as [ds'|]; [|discriminate H].
    inversion H; subst. simpl. f_equal. apply IH. reflexivity.
Qed.

(** What a loop body sees of a page. *)
Lemma page_view_inv r ds pc :
  page_view r = Some (ds, pc) ->
  (status_code r =? 200) = true /\
  exists m,
    safe_get_json r = JObj m /\
    py_iter (py_or (match lookup "entities" m with
                    | Some x => x | None => JArr [] end) (JArr []))
      = Ret (map JObj ds) /\
    (forall page,
        py_ge_int page (match lookup "pageCount" m with
                        | Some x => x | None => JInt 1 end)
        = Ret (pc <=? page)).
Proof.
  unfold page_view, safe_get_json. intros H.
  destruct (status_code r =? 200); [|discriminate H].
  split; [reflexivity|].
  destruct (content r) as [[| | | | |m]|]; try discriminate H.
  exists m. split; [reflexivity|].
  destruct (lookup "entities" m) as [[| | | |es|]|]; try discriminate H.
  destruct (as_dicts es) as [ds'|] eqn:Ed; [|discriminate H].
  apply as_dicts_map in Ed. subst es.
  assert (Hit : py_iter (py_or (JArr (map JObj ds')) (JArr []))
                = Ret (map JObj ds')).
  { destruct ds'; reflexivity. }
  destruct (lookup "pageCount" m) as [[| |n| | |]|]; try discriminate H;
    inversion H; subst; auto.
Qed.

Lemma skills_page_view needle page r ds pc :
  page_view r = Some (ds, pc) ->
  names_are_text ds = true ->
  skills_page needle page r =
  Ret (match find (named needle) ds with
       | Some d => Done (id_of d)
       | None => if pc <=? page then Done JNull else Next (page + 1)
       end).
Proof.
  intros Hv Hn. destruct (page_view_inv _ _ _ Hv) as [Hs [m [Hj [Hi Hp]]]].
  unfold skills_page. rewrite Hs, Hj. cbn [negb py_get rbind].
  rewrite Hi. cbn [rbind]. rewrite (scan_names_dicts _ _ Hn). cbn [rbind].
  destruct (find (named needle) ds); [reflexivity|].
  rewrite Hp. cbn [rbind]. destruct (pc <=? page); reflexivity.
Qed.

Lemma names_are_text_app ds1 ds2 :
  names_are_text (ds1 ++ ds2) = true ->
  names_are_text ds1 = true /\ names_are_text ds2 = true.
Proof.
  unfold names_are_text. rewrite forallb_app. apply andb_prop.
Qed.

Lemma find_routing_skill_listing token needle rs :
  forall page all rest log,
    listing page rs = Some all ->
    names_are_text all = true ->
    fst (while_get
           (fun page => mkRequest GET (RoutingSkills page) (auth_headers token) NoBody)
           (skills_page needle) page (mkWorld (map Resp rs ++ rest) log))
    = Ret (match find (named needle) all with
           | Some d => id_of d
           | None => JNull
           end).
Proof.
  induction rs as [|r rs IH]; intros page all rest log Hl Hn;
    [discriminate Hl|].
  simpl in Hl. destruct (page_view r) as [[ds pc]|] eqn:Hv; [|discriminate Hl].
  simpl map. simpl app. rewrite while_get_Resp.
  destruct (pc <=? page) eqn:Hpc.
  - destruct rs; [|discriminate Hl]. inversion Hl; subst.
    rewrite (skills_page_view _ _ _ _ _ Hv Hn), Hpc.
    destruct (find (named needle) all); reflexivity.
  - destruct (listing (page + 1) rs) as [more|] eqn:Hm; [|discriminate Hl].
    inversion Hl; subst.
    apply names_are_text_app in Hn. destruct Hn as [Hn1 Hn2].
    rewrite (skills_page_view _ _ _ _ _ Hv Hn1), Hpc, find_app.
    destruct (find (named needle) ds); [reflexivity|].
    apply (IH _ _ _ _ Hm Hn2).
Qed.

(** C6.  Over the pages of a skills listing (entity names being text),
    [find_routing_skill_id_by_name] returns the id of the first entity
    in page order whose trimmed, lowercased name equals the trimmed,
    lowercased query, and [None] when no entity of any page matches; the
    lookup of [_Voice] over two pages, the second holding [_voice] with
    id [sk1], returns [sk1]. *)
Theorem find_routing_skill_id_first_match
    (token : json) (skill_name_exact : string)
    (rs : list Response) (all : list dict)
    (rest : list Reply) (log : list Request) :
  listing 1 rs = Some all ->
  names_are_text all = true ->
  fst (find_routing_skill_id_by_name token skill_name_exact
         (mkWorld (map Resp rs ++ rest) log))
  = Ret (match find (named (lower (strip skill_name_exact))) all with
         | Some d => id_of d
         | None => JNull
         end)
  /\ fst (find_routing_skill_id_by_name token "_Voice"
            (mkWorld [Resp scenario_skills_page1; Resp scenario_skills_page2] []))
     = Ret (JStr "sk1").
Proof.
  intros Hl Hn. split.
  - unfold find_routing_skill_id_by_name.
    apply find_routing_skill_listing; assumption.
  - reflexivity.
Qed.

(** ** Template lookup with an empty needle *)

Lemma scan_phones_empty entities :
  match scan_phones EmptyString entities with
  | Ret found => found = None
  | Raise _ => True
  end.
Proof.
  induction entities as [|p rest IH]; simpl; [reflexivity|].
  destruct (py_get p "name" JNull) as [n|]; simpl; [|exact I].
  destruct (py_lower (py_or n (JStr EmptyString))); simpl; [|exact I].
  exact IH.
Qed.

Lemma phones_page_empty page r v :
  phones_page EmptyString page r = Ret (Done v) -> v = JNull.
Proof.
  unfold phones_page.
  destruct (negb (status_code r =? 200)); [intros H; inversion H; reflexivity|].
  destruct (py_get (safe_get_json r) "entities" (JArr [])) as [e|];
    cbn [rbind]; [|discriminate].
  destruct (py_iter (py_or e (JArr []))) as [entities|];
    cbn [rbind]; [|discriminate].
  pose proof (scan_phones_empty entities) as Hscan.
  destruct (scan_phones EmptyString entities) as [found|];
    cbn [rbind]; [|discriminate].
  subst found.
  destruct (py_get (safe_get_json r) "pageCount" (JInt 1)) as [pc|];
    cbn [rbind]; [|discriminate].
  destruct (py_ge_int page pc) as [[|]|]; cbn [rbind];
    intros H; inversion H; reflexivity.
Qed.

Lemma while_get_returns {S A} (P : A -> Prop) (rq : S -> Request)
    (step : S -> Response -> result (Ctl S A)) :
  (forall s r a, step s r = Ret (Done a) -> P a) ->
  forall s w a w', while_get rq step s w = (Ret a, w') -> P a.
Proof.
  intros Hstep s [replies log]. unfold while_get. simpl.
  revert s log.
  induction replies as [|[r|] rest IH]; intros s log a w' H; simpl in H;
    try discriminate H.
  destruct (step s r) as [[s'|a0]|e] eqn:E.
  - exact (IH _ _ _ _ H).
  - inversion H; subst. exact (Hstep _ _ _ E).
  - discriminate H.
Qed.

Lemma scan_phones_empty_dicts ds :
  names_are_text ds = true ->
  scan_phones EmptyString (map JObj ds) = Ret None.
Proof.
  induction ds as [|d ds IH]; intros H; [reflexivity|].
  simpl in H. apply andb_prop in H. destruct H as [Hd H].
  cbn [map scan_phones py_get rbind].
  destruct (name_text d) as [s|] eqn:E; [|discriminate Hd].
  rewrite (py_or_name_text _ _ E). cbn [py_lower rbind str_nonempty andb].
  apply IH. exact H.
Qed.

Lemma phones_page_empty_view page r ds pc :
  page_view r = Some (ds, pc) ->
  names_are_text ds = true ->
  phones_page EmptyString page r =
  Ret (if pc <=? page then Done JNull else Next (page + 1)).
Proof.
  intros Hv Hn. destruct (page_view_inv _ _ _ Hv) as [Hs [m [Hj [Hi Hp]]]].
  unfold phones_page. rewrite Hs, Hj. cbn [negb py_get rbind].
  rewrite Hi. cbn [rbind]. rewrite (scan_phones_empty_dicts _ Hn). cbn [rbind].
  rewrite Hp. cbn [rbind]. destruct (pc <=? page); reflexivity.
Qed.

Lemma find_phone_empty_listing token rs :
  forall page all rest log,
    listing page rs = Some all ->
    names_are_text all = true ->
    fst (while_get
           (fun page => mkRequest GET (Phones page) (auth_headers token) NoBody)
           (phones_page EmptyString) page (mkWorld (map Resp rs ++ rest) log))
    = Ret JNull.
Proof.
  induction rs as [|r rs IH]; intros page all rest log Hl Hn;
    [discriminate Hl|].
  simpl in Hl. destruct (page_view r) as [[ds pc]|] eqn:Hv; [|discriminate Hl].
  simpl map. simpl app. rewrite while_get_Resp.
  destruct (pc <=? page) eqn:Hpc.
  - destruct rs; [|discriminate Hl]. inversion Hl; subst.
    rewrite (phones_page_empty_view _ _ _ _ Hv Hn), Hpc. reflexivity.
  - destruct (listing (page + 1) rs) as [more|] eqn:Hm; [|discriminate Hl].
    inversion Hl; subst.
    apply names_are_text_app in Hn. destruct Hn as [Hn1 Hn2].
    rewrite (phones_page_empty_view _ _ _ _ Hv Hn1), Hpc.
    apply (IH _ _ _ _ Hm Hn2).
Qed.

Lemma lower_empty s : s = EmptyString -> lower s = EmptyString.
Proof. intros ->. reflexivity. Qed.

Lemma str_in_empty hay : str_in EmptyString hay = true.
Proof. destruct hay; reflexivity. Qed.

Lemma find_phone_empty_returns token name w v w' :
  strip name = EmptyString ->
  find_phone_id_by_name_contains token name w = (Ret v, w') -> v = JNull.
Proof.
  intros Hn. unfold find_phone_id_by_name_contains. rewrite Hn. simpl lower.
  apply (while_get_returns (fun v => v = JNull)).
  intros s r a. apply phones_page_empty.
Qed.

Lemma run_empty_template_raises cfg w :
  strip (TEMPLATE_PHONE_NAME_CONTAINS cfg) = EmptyString ->
  exists e, fst (run cfg w) = Raise e.
Proof.
  intros Hn. unfold run.
  repeat match goal with
  | |- exists e, fst (bind (find_phone_id_by_name_contains ?t ?n) ?k ?w0) = Raise e =>
      unfold bind at 1;
      let v := fresh "v" in let w1 := fresh "w" in let E := fresh "E" in
      destruct (find_phone_id_by_name_contains t n w0) as [[v|?] w1] eqn:E;
      [ apply (find_phone_empty_returns _ _ _ _ _ Hn) in E; subst v;
        cbn [truthy negb]; unfold raise; simpl fst; eauto
      | simpl fst; eauto ]
  | |- exists e, fst (bind ?m ?k ?w0) = Raise e =>
      unfold bind at 1;
      let w1 := fresh "w" in
      destruct (m w0) as [[?|?] w1]; [|simpl fst; eauto]
  | |- exists e, fst ((if ?b then _ else _) _) = Raise e =>
      destruct b; [unfold raise; simpl fst; eauto|]
  end.
Qed.

(** C9.  With an empty or whitespace-only name, although the empty
    string is in every phone name, [find_phone_id_by_name_contains]
    never returns a phone: every value it returns is [None], and over the
    pages of a phone listing (names being text) it returns [None]; [run]
    with such a [TEMPLATE_PHONE_NAME_CONTAINS] always ends in an error
    and never reaches the users. *)
Theorem find_phone_empty_needle_never_matches
    (token : json) (name_contains : string) :
  strip name_contains = EmptyString ->
  (forall pname, str_in (lower (strip name_contains)) pname = true)
  /\ (forall w v w',
         find_phone_id_by_name_contains token name_contains w = (Ret v, w') ->
         v = JNull)
  /\ (forall rs all rest log,
         listing 1 rs = Some all ->
         names_are_text all = true ->
         fst (find_phone_id_by_name_contains token name_contains
                (mkWorld (map Resp rs ++ rest) log)) = Ret JNull)
  /\ (forall cfg w,
         TEMPLATE_PHONE_NAME_CONTAINS cfg = name_contains ->
         exists e, fst (run cfg w) = Raise e).
Proof.
  intros Hn. split; [|split; [|split]].
  - intros pname. rewrite Hn. apply str_in_empty.
  - intros w v w'. apply find_phone_empty_returns. exact Hn.
  - intros rs all rest log Hl Ht. unfold find_phone_id_by_name_contains.
    rewrite Hn. simpl lower. apply (find_phone_empty_listing _ _ _ _ _ _ Hl Ht).
  - intros cfg w Hc. apply run_empty_template_raises. rewrite Hc. exact Hn.
Qed.

(* ================================================================== *)
(** * Runs on concrete directories *)
(* ================================================================== *)

(** C2, as stated, fails: on a template without lines [run] is not
    aborted; it ends normally and reports both users of the batch as
    failures. *)
Lemma run_counts_missing_lines_per_user :
  lacks_line_settings template_without_lines = true
  /\ fst (run default_config lineless_run) = Ret (Some (0, 2, 2))
  /\ script (snd (run default_config lineless_run)) = [].
Proof. vm_compute. repeat split. Qed.

Lemma missing_lines_fails_every_user_witness :
  (forall user, exists e,
      build_payload_from_template template_without_lines user = Raise e)
  /\ (forall user w, exists e,
         create_webrtc_phone_for_user default_config tok user
           template_without_lines (JStr "sk1") (JStr "lang1") w = (Raise e, w))
  /\ (forall users ok fail w,
         provision default_config tok users template_without_lines
           (JStr "sk1") (JStr "lang1") ok fail w
         = (Ret (ok, fail + Z.of_nat (List.length users)), w)).
Proof.
  apply (missing_lines_fails_every_user default_config tok
           template_without_lines (JStr "sk1") (JStr "lang1")).
  reflexivity.
Defined.

(** ** The cap on the number of users *)

(** C5 fails on the code.  With [MAX_USERS = 1] and a single page of two
    active users, [get_all_active_users] returns both: the cap is only
    looked at after a page that is not the last. *)
Theorem get_all_active_users_exceeds_cap :
  MAX_USERS capped_config = 1
  /\ fst (get_all_active_users capped_config tok
            (mkWorld [ok_json (one_page [active "u1" "Alice"; active "u2" "Bob"])] []))
     = Ret [alice; bob]
  /\ (List.length [alice; bob] > 1)%nat.
Proof. vm_compute. repeat split. apply le_n. Qed.

(** ** Instances *)

Lemma create_webrtc_phone_result_witness :
  exists payload r rest,
    build_payload_from_template template_phone alice = Ret payload /\
    script rejected_default_run = Resp r :: rest /\
    (true = true <->
     post_created (status_code r) = true /\
     exists w1 w2,
       await_station default_config tok alice 6
         (mkWorld rest (sent rejected_default_run ++ [create_request tok payload]))
         = (Ret tt, w1) /\
       ensure_user_skill tok alice (JStr "sk1")
         (TARGET_SKILL_PROFICIENCY default_config) w1 = (Ret true, w2) /\
       ensure_user_language tok alice (JStr "lang1")
         (TARGET_LANGUAGE_PROFICIENCY default_config) w2
       = (Ret true,
          snd (create_webrtc_phone_for_user default_config tok alice
                 template_phone (JStr "sk1") (JStr "lang1")
                 rejected_default_run))).
Proof.
  apply (proj1 (create_webrtc_phone_result default_config tok alice
                  template_phone (JStr "sk1") (JStr "lang1"))
           rejected_default_run true).
  vm_compute. reflexivity.
Defined.

Lemma batch_failure_isolation_witness :
  provision default_config tok [alice; bob] template_without_lines
    (JStr "sk1") (JStr "lang1") 0 0 (mkWorld [] [])
  = (Ret (0 + 0, 0 + 2), mkWorld [] []).
Proof.
  exact (proj1 (batch_failure_isolation default_config tok
                  template_without_lines (JStr "sk1") (JStr "lang1")
                  [alice; bob] 0 0 (mkWorld [] []))).
Defined.

Lemma set_default_station_status_witness :
  fst (set_default_station default_config tok (JStr "u1") (JStr "st1")
         (mkWorld (Resp (mkResponse 500 None) :: []) [])) = Ret false
  /\ fst (set_default_station default_config tok (JStr "u1") (JStr "st1")
            (mkWorld (Resp (mkResponse 204 None)
                        :: map Resp (repeat other_station 8) ++ []) []))
     = Ret true.
Proof.
  pose proof (set_default_station_status default_config tok
                (JStr "u1") (JStr "st1")) as [_ [Hrej [Hacc _]]].
  split.
  - apply Hrej. reflexivity.
  - apply Hacc; reflexivity.
Defined.

Lemma find_routing_skill_id_first_match_witness :
  fst (find_routing_skill_id_by_name tok "_Voice"
         (mkWorld (map Resp [scenario_skills_page1; scenario_skills_page2] ++ [])
            []))
  = Ret (JStr "sk1").
Proof.
  apply (proj1 (find_routing_skill_id_first_match tok "_Voice"
                  [scenario_skills_page1; scenario_skills_page2]
                  [[("name", JStr "Support"); ("id", JStr "sk0")];
                   [("name", JStr "_voice"); ("id", JStr "sk1")]]
                  [] [] eq_refl eq_refl)).
Defined.

Lemma build_payload_from_template_payload_witness :
  build_payload_from_template template_phone alice =
  Ret (JObj
    [("name", JStr "WebRTC - Alice");
     ("site", JObj [("id", JStr "S")]);
     ("phoneBaseSettings", JObj [("id", JStr "B")]);
     ("webRtcUser", JObj [("id", JStr "u1")]);
     ("lines", JArr [JObj [("lineBaseSettings", JObj [("id", JStr "L")])]])]).
Proof.
  apply (build_payload_from_template_payload
           [("id", JStr "ph1");
            ("name", JStr "WebRTC - Genesys Test User 1");
            ("site", JObj [("id", JStr "S")]);
            ("phoneBaseSettings", JObj [("id", JStr "B")]);
            ("lines", JArr [JObj [("lineBaseSettings",
                                   JObj [("id", JStr "L")])]])]
           [("id", JStr "S")] [("id", JStr "B")]
           [("lineBaseSettings", JObj [("id", JStr "L")])]
           [("id", JStr "L")] [] (JStr "S") (JStr "B") (JStr "L")
           alice (JStr "u1") "Alice");
    reflexivity.
Defined.

Lemma ensure_capability_present_no_mutation_witness :
  ensure_user_skill tok alice (JStr "sk1") (Qmake 0 1) has_sk1
  = (Ret true, snd (user_has_skill tok (JStr "u1") (JStr "sk1") has_sk1))
  /\ mutations (sent (snd (user_has_skill tok (JStr "u1") (JStr "sk1") has_sk1)))
     = mutations (sent has_sk1)
  /\ exists reads,
       sent (snd (user_has_skill tok (JStr "u1") (JStr "sk1") has_sk1))
       = sent has_sk1 ++ reads
       /\ Forall (fun rq => meth rq = GET) reads.
Proof.
  apply (proj1 (ensure_capability_present_no_mutation tok alice (JStr "sk1")
                  (Qmake 0 1) has_sk1
                  (snd (user_has_skill tok (JStr "u1") (JStr "sk1") has_sk1)))).
  vm_compute. reflexivity.
Defined.

Lemma find_phone_empty_needle_never_matches_witness :
  fst (find_phone_id_by_name_contains tok "   "
         (mkWorld
            (map Resp [mkResponse 200
                         (Some (one_page [JObj [("name", JStr "WebRTC - Genesys Test User 1");
                                                ("id", JStr "ph1")]]))] ++ [])
            []))
  = Ret JNull.
Proof.
  apply (proj1 (proj2 (proj2
           (find_phone_empty_needle_never_matches tok "   " eq_refl)))
           _ [[("name", JStr "WebRTC - Genesys Test User 1"); ("id", JStr "ph1")]]);
    reflexivity.
Defined.

Lemma failed_membership_fetch_patches_witness :
  user_has_skill tok (JStr "u1") (JStr "sk1")
    (mkWorld (map Resp [more_skills]
                ++ Resp (mkResponse 503 None) :: Resp (mkResponse 200 None) :: [])
       [])
  = (Ret false,
     mkWorld [Resp (mkResponse 200 None)]
       ([] ++ page_requests (skills_read tok (JStr "u1")) 1 2))
  /\ ensure_user_skill tok alice (JStr "sk1") (Qmake 0 1)
       (mkWorld (map Resp [more_skills]
                   ++ Resp (mkResponse 503 None) :: Resp (mkResponse 200 None) :: [])
          [])
     = (Ret true,
        mkWorld []
          (([] ++ page_requests (skills_read tok (JStr "u1")) 1 2)
           ++ [mkRequest PATCH (UserRoutingSkillsBulk (JStr "u1"))
                 (json_headers tok) (Bulk (JStr "sk1") (Qmake 0 1))])).
Proof.
  apply (proj1 (failed_membership_fetch_patches tok alice (JStr "sk1")
                  (Qmake 0 1) [more_skills] (mkResponse 503 None)
                  (mkResponse 200 None) [] [] eq_refl)).
  reflexivity.
Defined.

(* ================================================================== *)
(** * Further properties of the script *)
(* ================================================================== *)

(** ** Start of a run *)

(** X1.  Without both credentials [run] stops with [SystemExit] before
    it sends anything. *)
Theorem run_without_credentials (cfg : Config) (w : World) :
  credentials_set cfg = false ->
  exists msg, run cfg w = (Raise (SystemExit msg), w).
Proof.
  unfold credentials_set, run, require_env. intros H.
  apply andb_false_iff in H.
  unfold bind at 1.
  destruct (opt_truthy (CLIENT_ID cfg)); destruct (opt_truthy (CLIENT_SECRET cfg));
    simpl; try (eexists; reflexivity).
  destruct H; discriminate.
Qed.

Lemma get_access_token_world cfg w :
  snd (get_access_token cfg w)
  = mkWorld (tl (script w)) (sent w ++ [token_request cfg]).
Proof.
  destruct w as [[|[r|] rest] log];
    unfold get_access_token, try_except_RequestException, bind, http;
    simpl; try reflexivity.
  destruct (status_code r =? 200); [|reflexivity].
  destruct (content r) as [j|]; [|reflexivity].
  unfold lift. destruct (py_get j "access_token" JNull) as [v|[]]; reflexivity.
Qed.

Lemma get_access_token_refused cfg w :
  token_refused (script w) = true -> fst (get_access_token cfg w) = Ret JNull.
Proof.
  destruct w as [[|[r|] rest] log];
    unfold get_access_token, try_except_RequestException, bind, http;
    simpl; try reflexivity.
  destruct (status_code r =? 200); [|reflexivity].
  destruct (content r) as [j|]; [discriminate|reflexivity].
Qed.

Lemma get_access_token_raises cfg w e :
  fst (get_access_token cfg w) = Raise e -> e = AttributeError.
Proof.
  destruct w as [[|[r|] rest] log];
    unfold get_access_token, try_except_RequestException, bind, http;
    simpl; try discriminate.
  destruct (status_code r =? 200); [|discriminate].
  destruct (content r) as [j|]; [|discriminate].
  unfold lift. destruct j; simpl; try discriminate;
    intros H; inversion H; reflexivity.
Qed.

(** X2.  [get_access_token] sends exactly the token request and
    consumes its reply.  A failed call, a status other than 200 and a
    body that is not JSON all give [None]; the only exception that
    escapes is the [AttributeError] of a JSON body that is not an object.
    On [None], [run] (with credentials) stops with [SystemExit] after
    that one request. *)
Theorem get_access_token_outcomes (cfg : Config) (w : World) :
  snd (get_access_token cfg w)
  = mkWorld (tl (script w)) (sent w ++ [token_request cfg])
  /\ (token_refused (script w) = true ->
      fst (get_access_token cfg w) = Ret JNull)
  /\ (forall e, fst (get_access_token cfg w) = Raise e -> e = AttributeError)
  /\ (credentials_set cfg = true ->
      token_refused (script w) = true ->
      run cfg w
      = (Raise (SystemExit "Could not obtain access token"),
         mkWorld (tl (script w)) (sent w ++ [token_request cfg]))).
Proof.
  split; [apply get_access_token_world|].
  split; [apply get_access_token_refused|].
  split; [apply get_access_token_raises|].
  intros Hc Hr. unfold credentials_set in Hc. apply andb_prop in Hc.
  destruct Hc as [Hi Hs].
  unfold run, require_env. rewrite Hi, Hs. simpl negb. simpl orb. cbv iota.
  unfold bind at 1. unfold ret at 1. unfold bind at 1.
  pose proof (get_access_token_world cfg w) as Hw.
  pose proof (get_access_token_refused cfg w Hr) as Hv.
  destruct (get_access_token cfg w) as [o w1]. simpl in Hw, Hv. subst o w1.
  reflexivity.
Qed.

(** ** Default-station check *)

Lemma eqb_nonempty_empty e :
  str_nonempty e = true -> String.eqb e EmptyString = false.
Proof. destruct e; [discriminate | reflexivity]. Qed.

Lemma candidate_has e o :
  str_nonempty e = true ->
  existsb (py_eq (JStr e))
    (filter truthy (candidate (match o with Some x => x | None => JNull end)))
  = flat_or_nested_is e o.
Proof.
  intros He. destruct o as [[| | |s| |d]|]; try reflexivity.
  - simpl. destruct s; simpl.
    + symmetry. apply eqb_nonempty_empty. exact He.
    + apply orb_false_r.
  - simpl. destruct (lookup "id" d) as [[| | |s| |]|]; try reflexivity.
    simpl. destruct s; simpl.
    + symmetry. apply eqb_nonempty_empty. exact He.
    + apply orb_false_r.
Qed.

Lemma station_candidate_has e o :
  str_nonempty e = true ->
  existsb (py_eq (JStr e))
    (filter truthy
       (station_candidate (match o with Some x => x | None => JNull end)))
  = nested_is e o.
Proof.
  intros He. destruct o as [[| | | | |d]|]; try reflexivity.
  simpl. destruct (lookup "id" d) as [[| | |s| |]|]; try reflexivity.
  simpl. destruct s; simpl.
  - symmetry. apply eqb_nonempty_empty. exact He.
  - apply orb_false_r.
Qed.

(** X3.  For a station state that is an object and an expected id that
    is a non-empty string, [is_default_station_set] never raises and
    returns [True] exactly when the id is the string value, or the [id]
    of the object value, of one of the five probed keys, or the [id] of
    the object under [station]; a plain string under [station] does not
    count. *)
Theorem is_default_station_set_shapes (m : dict) (e : string) :
  str_nonempty e = true ->
  is_default_station_set (JObj m) (JStr e) = Ret (shows_station_id e m).
Proof.
  intros He. unfold is_default_station_set, shows_station_id, station_keys.
  destruct m as [|kv m'].
  - reflexivity.
  - set (m := kv :: m').
    change (truthy (JObj m)) with true. cbn [truthy negb orb].
    rewrite He. cbn [negb probe py_get rbind].
    rewrite !filter_app, !existsb_app, !(candidate_has e _ He),
      (station_candidate_has e _ He).
    cbn [existsb filter]. rewrite !orb_false_r, !orb_assoc. reflexivity.
Qed.

(** ** Users without WebRTC *)

Lemma get_webrtc_station_view token uid r b rest log :
  station_view r = Some b ->
  exists id,
    get_webrtc_station_for_user token uid (mkWorld (Resp r :: rest) log)
    = (Ret (b, id), mkWorld rest (log ++ [stations_read token uid])).
Proof.
  unfold station_view, get_webrtc_station_for_user. intros H.
  unfold bind at 1. rewrite http_Resp.
  destruct (negb (status_code r =? 200)).
  - inversion H. exists JNull. reflexivity.
  - destruct (safe_get_json r) as [| | | | |m]; try discriminate H.
    unfold bind at 1. unfold lift at 1. cbn [py_get].
    destruct (lookup "entities" m) as [e|].
    + unfold py_or. destruct (truthy e) eqn:He.
      * rewrite He. cbn [negb].
        destruct e as [| | | |[|[| | | | |d] l]|]; try discriminate H.
        inversion H. eexists. reflexivity.
      * cbn [truthy negb]. inversion H. exists JNull. reflexivity.
    + inversion H. exists JNull. reflexivity.
Qed.

Lemma scan_without_webrtc_views token users :
  forall rs bs acc rest log,
    map station_view rs = map Some bs ->
    List.length rs = List.length users ->
    scan_without_webrtc token users acc (mkWorld (map Resp rs ++ rest) log)
    = (Ret (acc ++ lacking users bs),
       mkWorld rest (log ++ map (fun u => stations_read token (ID u)) users)).
Proof.
  induction users as [|u us IH]; intros rs bs acc rest log Hv Hl.
  - destruct rs; [|discriminate Hl]. simpl. rewrite !app_nil_r. reflexivity.
  - destruct rs as [|r rs]; [discriminate Hl|].
    destruct bs as [|b bs]; [discriminate Hv|].
    simpl in Hv. inversion Hv as [[Hr Hrs]]. simpl in Hl. inversion Hl as [Hl'].
    destruct (get_webrtc_station_view token (ID u) r b (map Resp rs ++ rest) log Hr)
      as [id Hg].
    simpl map. simpl app. simpl scan_without_webrtc.
    rewrite (bind_Ret _ _ _ _ _ Hg).
    rewrite (IH rs bs _ rest _ Hrs Hl').
    destruct b; simpl; rewrite <- !app_assoc; reflexivity.
Qed.

(** X4.  Given one readable reply per user, [get_users_without_webrtc]
    returns, in their order, exactly the users whose lookup showed no
    endpoint, a lookup with a status other than 200 counting as none;
    it sends one station lookup per user and nothing else. *)
Theorem get_users_without_webrtc_filters
    (token : json) (users : list User) (rs : list Response) (bs : list bool)
    (rest : list Reply) (log : list Request) :
  map station_view rs = map Some bs ->
  List.length rs = List.length users ->
  get_users_without_webrtc token users (mkWorld (map Resp rs ++ rest) log)
  = (Ret (lacking users bs),
     mkWorld rest (log ++ map (fun u => stations_read token (ID u)) users)).
Proof.
  intros Hv Hl. unfold get_users_without_webrtc.
  rewrite (scan_without_webrtc_views token users rs bs [] rest log Hv Hl).
  reflexivity.
Qed.

(** ** Lookups over a whole listing *)

(** A paged loop whose body, on a page, either finds its answer among
    the page's entities or goes on to the next page until the last. *)
Lemma while_get_listing {A} (rq : Z -> Request)
    (step : Z -> Response -> result (Ctl Z A))
    (ok : list dict -> bool) (hit : list dict -> option A) (miss : A) :
  (forall page r ds pc,
      page_view r = Some (ds, pc) -> ok ds = true ->
      step page r =
      Ret (match hit ds with
           | Some a => Done a
           | None => if pc <=? page then Done miss else Next (page + 1)
           end)) ->
  (forall ds1 ds2, ok (ds1 ++ ds2) = true -> ok ds1 = true /\ ok ds2 = true) ->
  (forall ds1 ds2,
      hit (ds1 ++ ds2) = match hit ds1 with Some a => Some a | None => hit ds2 end) ->
  forall rs page all rest log,
    listing page rs = Some all ->
    ok all = true ->
    fst (while_get rq step page (mkWorld (map Resp rs ++ rest) log))
    = Ret (match hit all with Some a => a | None => miss end).
Proof.
  intros Hstep Hok Hhit.
  induction rs as [|r rs IH]; intros page all rest log Hl Hn;
    [discriminate Hl|].
  simpl in Hl. destruct (page_view r) as [[ds pc]|] eqn:Hv; [|discriminate Hl].
  simpl map. simpl app. rewrite while_get_Resp.
  destruct (pc <=? page) eqn:Hpc.
  - destruct rs; [|discriminate Hl]. inversion Hl; subst.
    rewrite (Hstep _ _ _ _ Hv Hn), Hpc.
    destruct (hit all); reflexivity.
  - destruct (listing (page + 1) rs) as [more|] eqn:Hm; [|discriminate Hl].
    inversion Hl; subst.
    apply Hok in Hn. destruct Hn as [Hn1 Hn2].
    rewrite (Hstep _ _ _ _ Hv Hn1), Hpc, Hhit.
    destruct (hit ds); [reflexivity|].
    apply (IH _ _ _ _ Hm Hn2).
Qed.

Lemma languages_page_view needle page r ds pc :
  page_view r = Some (ds, pc) ->
  names_are_text ds = true ->
  languages_page needle page r =
  Ret (match option_map id_of (find (named needle) ds) with
       | Some a => Done a
       | None => if pc <=? page then Done JNull else Next (page + 1)
       end).
Proof.
  intros Hv Hn. destruct (page_view_inv _ _ _ Hv) as [Hs [m [Hj [Hi Hp]]]].
  unfold languages_page. rewrite Hs, Hj. cbn [negb py_get rbind].
  rewrite Hi. cbn [rbind]. rewrite (scan_names_dicts _ _ Hn). cbn [rbind].
  destruct (find (named needle) ds); [reflexivity|].
  simpl option_map. cbv iota.
  rewrite Hp. cbn [rbind]. destruct (pc <=? page); reflexivity.
Qed.

Lemma option_map_find_app {A B} (g : A -> B) (f : A -> bool) l1 l2 :
  option_map g (find f (l1 ++ l2)) =
  match option_map g (find f l1) with
  | Some a => Some a
  | None => option_map g (find f l2)
  end.
Proof. rewrite find_app. destruct (find f l1); reflexivity. Qed.

(** X5.  Over the pages of a languages listing (entity names being
    text), [find_routing_language_id_by_name] returns the id of the
    first entity in page order whose trimmed, lowercased name equals the
    trimmed, lowercased query, and [None] when there is none. *)
Theorem find_routing_language_id_first_match
    (token : json) (language_name_exact : string)
    (rs : list Response) (all : list dict)
    (rest : list Reply) (log : list Request) :
  listing 1 rs = Some all ->
  names_are_text all = true ->
  fst (find_routing_language_id_by_name token language_name_exact
         (mkWorld (map Resp rs ++ rest) log))
  = Ret (match find (named (lower (strip language_name_exact))) all with
         | Some d => id_of d
         | None => JNull
         end).
Proof.
  intros Hl Hn. unfold find_routing_language_id_by_name.
  rewrite (while_get_listing _ _ names_are_text
             (fun ds => option_map id_of
                          (find (named (lower (strip language_name_exact))) ds))
             JNull
             (fun page r ds pc => languages_page_view _ page r ds pc)
             names_are_text_app
             (option_map_find_app _ _) rs 1 all rest log Hl Hn).
  destruct (find (named (lower (strip language_name_exact))) all); reflexivity.
Qed.

Lemma scan_phones_dicts needle ds :
  names_are_text ds = true ->
  scan_phones needle (map JObj ds) =
  Ret (option_map id_of (find (name_contains needle) ds)).
Proof.
  induction ds as [|d ds IH]; intros H; [reflexivity|].
  simpl in H. apply andb_prop in H. destruct H as [Hd H].
  cbn [map scan_phones py_get rbind find]. unfold name_contains at 1.
  destruct (name_text d) as [s|] eqn:E; [|discriminate Hd].
  rewrite (py_or_name_text _ _ E). cbn [py_lower rbind].
  destruct (str_nonempty needle && str_in needle (lower s)); [reflexivity|].
  apply IH. exact H.
Qed.

Lemma phones_page_view needle page r ds pc :
  page_view r = Some (ds, pc) ->
  names_are_text ds = true ->
  phones_page needle page r =
  Ret (match option_map id_of (find (name_contains needle) ds) with
       | Some a => Done a
       | None => if pc <=? page then Done JNull else Next (page + 1)
       end).
Proof.
  intros Hv Hn. destruct (page_view_inv _ _ _ Hv) as [Hs [m [Hj [Hi Hp]]]].
  unfold phones_page. rewrite Hs, Hj. cbn [negb py_get rbind].
  rewrite Hi. cbn [rbind]. rewrite (scan_phones_dicts _ _ Hn). cbn [rbind].
  destruct (find (name_contains needle) ds); [reflexivity|].
  simpl option_map. cbv iota.
  rewrite Hp. cbn [rbind]. destruct (pc <=? page); reflexivity.
Qed.

(** X6.  Over the pages of a phone listing (names being text),
    [find_phone_id_by_name_contains] returns the id of the first phone
    in page order whose lowercased name contains the trimmed, lowercased
    query, the query being non-empty, and [None] when there is none.
    The phone's name is lowercased but not trimmed. *)
Theorem find_phone_id_first_containing
    (token : json) (name : string)
    (rs : list Response) (all : list dict)
    (rest : list Reply) (log : list Request) :
  listing 1 rs = Some all ->
  names_are_text all = true ->
  fst (find_phone_id_by_name_contains token name
         (mkWorld (map Resp rs ++ rest) log))
  = Ret (match find (name_contains (lower (strip name))) all with
         | Some d => id_of d
         | None => JNull
         end).
Proof.
  intros Hl Hn. unfold find_phone_id_by_name_contains.
  rewrite (while_get_listing _ _ names_are_text
             (fun ds => option_map id_of
                          (find (name_contains (lower (strip name))) ds))
             JNull
             (fun page r ds pc => phones_page_view _ page r ds pc)
             names_are_text_app
             (option_map_find_app _ _) rs 1 all rest log Hl Hn).
  destruct (find (name_contains (lower (strip name))) all); reflexivity.
Qed.

Lemma any_id_dicts cap ds :
  any_id cap (map JObj ds) = Ret (existsb (is_capability cap) ds).
Proof.
  induction ds as [|d ds IH]; [reflexivity|].
  cbn [map any_id py_get rbind existsb]. unfold is_capability at 1, id_of.
  destruct (py_eq (match lookup "id" d with Some x => x | None => JNull end) cap);
    [reflexivity | exact IH].
Qed.

Lemma found_capability_app cap ds1 ds2 :
  found_capability cap (ds1 ++ ds2) =
  match found_capability cap ds1 with
  | Some a => Some a
  | None => found_capability cap ds2
  end.
Proof.
  unfold found_capability. rewrite existsb_app.
  destruct (existsb (is_capability cap) ds1); reflexivity.
Qed.

Lemma user_skills_page_view cap page r ds pc :
  page_view r = Some (ds, pc) ->
  user_skills_page cap page r =
  Ret (match found_capability cap ds with
       | Some a => Done a
       | None => if pc <=? page then Done false else Next (page + 1)
       end).
Proof.
  intros Hv. destruct (page_view_inv _ _ _ Hv) as [Hs [m [Hj [Hi Hp]]]].
  unfold user_skills_page, found_capability.
  rewrite Hs, Hj. cbn [negb py_get rbind].
  rewrite Hi. cbn [rbind]. rewrite any_id_dicts. cbn [rbind].
  destruct (existsb (is_capability cap) ds); [reflexivity|].
  rewrite Hp. cbn [rbind]. destruct (pc <=? page); reflexivity.
Qed.

Lemma user_languages_page_view cap page r ds pc :
  page_view r = Some (ds, pc) ->
  user_languages_page cap page r =
  Ret (match found_capability cap ds with
       | Some a => Done a
       | None => if pc <=? page then Done false else Next (page + 1)
       end).
Proof.
  intros Hv. destruct (page_view_inv _ _ _ Hv) as [Hs [m [Hj [Hi Hp]]]].
  unfold user_languages_page, found_capability.
  rewrite Hs, Hj. cbn [negb py_get rbind].
  rewrite Hi. cbn [rbind]. rewrite any_id_dicts. cbn [rbind].
  destruct (existsb (is_capability cap) ds); [reflexivity|].
  rewrite Hp. cbn [rbind]. destruct (pc <=? page); reflexivity.
Qed.

(** X7.  Over the pages of a user's skill (language) associations,
    [user_has_skill] ([user_has_language]) returns [True] exactly when
    some association on some page has the capability's id. *)
Theorem user_has_capability_membership
    (token uid cap : json) (rs : list Response) (all : list dict)
    (rest : list Reply) (log : list Request) :
  listing 1 rs = Some all ->
  fst (user_has_skill token uid cap (mkWorld (map Resp rs ++ rest) log))
  = Ret (existsb (is_capability cap) all)
  /\ fst (user_has_language token uid cap (mkWorld (map Resp rs ++ rest) log))
     = Ret (existsb (is_capability cap) all).
Proof.
  intros Hl. split.
  - unfold user_has_skill.
    rewrite (while_get_listing _ _ (fun _ => true) (found_capability cap) false
               (fun page r ds pc Hv _ => user_skills_page_view cap page r ds pc Hv)
               (fun _ _ _ => conj eq_refl eq_refl)
               (found_capability_app cap) rs 1 all rest log Hl eq_refl).
    unfold found_capability.
    destruct (existsb (is_capability cap) all); reflexivity.
  - unfold user_has_language.
    rewrite (while_get_listing _ _ (fun _ => true) (found_capability cap) false
               (fun page r ds pc Hv _ => user_languages_page_view cap page r ds pc Hv)
               (fun _ _ _ => conj eq_refl eq_refl)
               (found_capability_app cap) rs 1 all rest log Hl eq_refl).
    unfold found_capability.
    destruct (existsb (is_capability cap) all); reflexivity.
Qed.

(** ** A page that fails during a lookup *)

Lemma while_get_stops {A} (rq : Z -> Request)
    (step : Z -> Response -> result (Ctl Z A)) (a : A)
    pages bad rest log :
  pages_continue step 1 pages = true ->
  step (1 + Z.of_nat (List.length pages)) bad = Ret (Done a) ->
  while_get rq step 1 (mkWorld (map Resp pages ++ Resp bad :: rest) log)
  = (Ret a, mkWorld rest (log ++ page_requests rq 1 (S (List.length pages)))).
Proof.
  intros Hp Hb. rewrite (while_get_pages_continue _ _ _ _ _ _ Hp).
  rewrite while_get_Resp, Hb, page_requests_snoc, app_assoc. reflexivity.
Qed.

(** X8.  In the three name lookups a page that answers with a status
    other than 200, after any number of pages read through, ends the
    lookup with [None]: the pages that would follow are not asked for,
    whatever they hold. *)
Theorem lookups_stop_at_failed_page
    (token : json) (name : string)
    (pages : list Response) (bad : Response) (rest : list Reply)
    (log : list Request) :
  (status_code bad =? 200) = false ->
  let n := S (List.length pages) in
  let w := mkWorld (map Resp pages ++ Resp bad :: rest) log in
  (pages_continue (skills_page (lower (strip name))) 1 pages = true ->
   find_routing_skill_id_by_name token name w
   = (Ret JNull, mkWorld rest (log ++ page_requests (skills_lookup token) 1 n)))
  /\ (pages_continue (languages_page (lower (strip name))) 1 pages = true ->
      find_routing_language_id_by_name token name w
      = (Ret JNull,
         mkWorld rest (log ++ page_requests (languages_lookup token) 1 n)))
  /\ (pages_continue (phones_page (lower (strip name))) 1 pages = true ->
      find_phone_id_by_name_contains token name w
      = (Ret JNull, mkWorld rest (log ++ page_requests (phones_lookup token) 1 n))).
Proof.
  intros Hbad n w. split; [|split]; intros Hp.
  - apply (while_get_stops (skills_lookup token)); [exact Hp|].
    unfold skills_page. rewrite Hbad. reflexivity.
  - apply (while_get_stops (languages_lookup token)); [exact Hp|].
    unfold languages_page. rewrite Hbad. reflexivity.
  - apply (while_get_stops (phones_lookup token)); [exact Hp|].
    unfold phones_page. rewrite Hbad. reflexivity.
Qed.

(** ** Active users *)

Lemma collect_active_dicts ds :
  forall users,
    collect_active users (map JObj ds) = Ret (users ++ actives ds).
Proof.
  induction ds as [|d ds IH]; intros users.
  - simpl. rewrite app_nil_r. reflexivity.
  - cbn [map collect_active py_get rbind].
    change (py_eq (match lookup "state" d with Some v => v | None => JNull end)
              (JStr "active")) with (is_active d).
    unfold actives. cbn [filter].
    destruct (is_active d); cbn [negb].
    + rewrite IH. cbn [map]. rewrite <- app_assoc. reflexivity.
    + apply IH.
Qed.

Lemma actives_app ds1 ds2 : actives (ds1 ++ ds2) = actives ds1 ++ actives ds2.
Proof. unfold actives. rewrite filter_app, map_app. reflexivity. Qed.

Lemma users_page_view cfg page users r ds pc :
  page_view r = Some (ds, pc) ->
  users_page cfg (page, users) r =
  Ret (if pc <=? page then Done (users ++ actives ds)
       else if cap_reached cfg (users ++ actives ds)
            then Done (py_slice_to (MAX_USERS cfg) (users ++ actives ds))
            else Next (page + 1, users ++ actives ds)).
Proof.
  intros Hv. destruct (page_view_inv _ _ _ Hv) as [Hs [m [Hj [Hi Hp]]]].
  unfold users_page, cap_reached. rewrite Hs, Hj. cbn [negb py_get rbind].
  rewrite Hi. cbn [rbind]. rewrite collect_active_dicts. cbn [rbind].
  rewrite Hp. cbn [rbind]. destruct (pc <=? page); [reflexivity|].
  destruct (negb (MAX_USERS cfg =? 0)
            && (MAX_USERS cfg <=? Z.of_nat (List.length (users ++ actives ds))));
    reflexivity.
Qed.

Lemma cap_reached_prefix cfg us more :
  cap_reached cfg (us ++ more) = false -> cap_reached cfg us = false.
Proof.
  unfold cap_reached. rewrite length_app.
  destruct (MAX_USERS cfg =? 0); [reflexivity|]. simpl.
  intros H. apply Z.leb_gt in H. apply Z.leb_gt. lia.
Qed.

Lemma users_loop_open cfg token rs :
  forall page users all rest log,
    open_listing page rs = Some all ->
    cap_reached cfg (users ++ actives all) = false ->
    while_get (fun s => mkRequest GET (Users (fst s)) (auth_headers token) NoBody)
      (users_page cfg) (page, users) (mkWorld (map Resp rs ++ rest) log)
    = while_get (fun s => mkRequest GET (Users (fst s)) (auth_headers token) NoBody)
        (users_page cfg)
        (page + Z.of_nat (List.length rs), users ++ actives all)
        (mkWorld rest
           (log ++ page_requests (users_read token) page (List.length rs))).
Proof.
  induction rs as [|r rs IH]; intros page users all rest log Ho Hc.
  - simpl in Ho. inversion Ho; subst. simpl.
    unfold actives. simpl. rewrite !app_nil_r, Z.add_0_r. reflexivity.
  - simpl in Ho. destruct (page_view r) as [[ds pc]|] eqn:Hv; [|discriminate Ho].
    destruct (pc <=? page) eqn:Hpc; [discriminate Ho|].
    destruct (open_listing (page + 1) rs) as [more|] eqn:Hm; [|discriminate Ho].
    inversion Ho; subst all.
    rewrite actives_app, app_assoc in Hc.
    simpl map. simpl app. rewrite while_get_Resp.
    rewrite (users_page_view _ _ _ _ _ _ Hv), Hpc.
    rewrite (cap_reached_prefix _ _ _ Hc).
    rewrite (IH _ _ _ _ _ Hm Hc).
    rewrite actives_app, (app_assoc users). simpl List.length.
    simpl page_requests. rewrite <- (app_assoc log).
    replace (page + 1 + Z.of_nat (List.length rs))
      with (page + Z.of_nat (S (List.length rs))) by lia.
    reflexivity.
Qed.

Lemma users_loop_listing cfg token rs :
  MAX_USERS cfg = 0 ->
  forall page users all rest log,
    listing page rs = Some all ->
    fst (while_get
           (fun s => mkRequest GET (Users (fst s)) (auth_headers token) NoBody)
           (users_page cfg) (page, users) (mkWorld (map Resp rs ++ rest) log))
    = Ret (users ++ actives all).
Proof.
  intros Hcap.
  induction rs as [|r rs IH]; intros page users all rest log Hl;
    [discriminate Hl|].
  simpl in Hl. destruct (page_view r) as [[ds pc]|] eqn:Hv; [|discriminate Hl].
  simpl map. simpl app. rewrite while_get_Resp.
  rewrite (users_page_view _ _ _ _ _ _ Hv).
  destruct (pc <=? page) eqn:Hpc.
  - destruct rs; [|discriminate Hl]. inversion Hl; subst. reflexivity.
  - destruct (listing (page + 1) rs) as [more|] eqn:Hm; [|discriminate Hl].
    inversion Hl; subst.
    unfold cap_reached. rewrite Hcap. simpl.
    rewrite (IH _ _ _ _ _ Hm), actives_app, app_assoc. reflexivity.
Qed.

(** X9.  With no cap ([MAX_USERS = 0]), over the pages of a users
    listing [get_all_active_users] returns, in page order, the users of
    exactly the entities whose [state] is [active], each with the
    entity's id, name, email, department and title. *)
Theorem get_all_active_users_actives
    (cfg : Config) (token : json) (rs : list Response) (all : list dict)
    (rest : list Reply) (log : list Request) :
  MAX_USERS cfg = 0 ->
  listing 1 rs = Some all ->
  fst (get_all_active_users cfg token (mkWorld (map Resp rs ++ rest) log))
  = Ret (actives all).
Proof.
  intros Hcap Hl. unfold get_all_active_users.
  apply (users_loop_listing cfg token rs Hcap 1 [] all rest log Hl).
Qed.

(** X10.  When a page of the users listing answers with a status other
    than 200, [get_all_active_users] does not fail: it returns the active
    users of the pages read so far (the cap not having been reached) and
    asks for no further page. *)
Theorem get_all_active_users_partial
    (cfg : Config) (token : json) (rs : list Response) (before : list dict)
    (bad : Response) (rest : list Reply) (log : list Request) :
  open_listing 1 rs = Some before ->
  cap_reached cfg (actives before) = false ->
  (status_code bad =? 200) = false ->
  get_all_active_users cfg token (mkWorld (map Resp rs ++ Resp bad :: rest) log)
  = (Ret (actives before),
     mkWorld rest
       (log ++ page_requests (users_read token) 1 (S (List.length rs)))).
Proof.
  intros Ho Hc Hbad. unfold get_all_active_users.
  rewrite (users_loop_open cfg token rs 1 [] before _ log Ho Hc).
  rewrite while_get_Resp. unfold users_page at 1. rewrite Hbad.
  cbn [negb app fst]. rewrite page_requests_snoc, app_assoc. reflexivity.
Qed.

(** X11.  With a cap [MAX_USERS = N > 0]: when a page that is not the
    last brings the number of active users read to [N] or more, the
    pages before it having left it below [N], [get_all_active_users]
    returns the first [N] of them and asks for no further page. *)
Theorem get_all_active_users_capped
    (cfg : Config) (token : json) (rs : list Response) (before : list dict)
    (r : Response) (ds : list dict) (pc : Z)
    (rest : list Reply) (log : list Request) :
  0 < MAX_USERS cfg ->
  open_listing 1 rs = Some before ->
  page_view r = Some (ds, pc) ->
  1 + Z.of_nat (List.length rs) < pc ->
  Z.of_nat (List.length (actives before)) < MAX_USERS cfg ->
  MAX_USERS cfg <= Z.of_nat (List.length (actives (before ++ ds))) ->
  get_all_active_users cfg token (mkWorld (map Resp rs ++ Resp r :: rest) log)
  = (Ret (firstn (Z.to_nat (MAX_USERS cfg)) (actives (before ++ ds))),
     mkWorld rest
       (log ++ page_requests (users_read token) 1 (S (List.length rs))))
  /\ List.length (firstn (Z.to_nat (MAX_USERS cfg)) (actives (before ++ ds)))
     = Z.to_nat (MAX_USERS cfg).
Proof.
  intros HN Ho Hv Hpc Hlt Hge. split.
  - unfold get_all_active_users.
    assert (Hc : cap_reached cfg ([] ++ actives before) = false).
    { unfold cap_reached. simpl app. apply andb_false_iff. right.
      apply Z.leb_gt. exact Hlt. }
    rewrite (users_loop_open cfg token rs 1 [] before _ log Ho Hc).
    rewrite while_get_Resp. cbn [app].
    rewrite (users_page_view _ _ _ _ _ _ Hv).
    replace (pc <=? 1 + Z.of_nat (List.length rs)) with false
      by (symmetry; apply Z.leb_gt; exact Hpc).
    rewrite <- actives_app.
    assert (Hr : cap_reached cfg (actives (before ++ ds)) = true).
    { unfold cap_reached. apply andb_true_iff. split.
      - apply negb_true_iff. apply Z.eqb_neq. lia.
      - apply Z.leb_le. exact Hge. }
    rewrite Hr. unfold py_slice_to.
    replace (0 <=? MAX_USERS cfg) with true by (symmetry; apply Z.leb_le; lia).
    cbn [fst]. rewrite page_requests_snoc, app_assoc. reflexivity.
  - apply firstn_length_le. lia.
Qed.

(** ** Steps of the workflow *)

(** X12.  When the endpoint POST is answered with a status other than
    200 and 201, [create_webrtc_phone_for_user] returns [False] having
    sent that POST only: no station lookup, no PUT, no PATCH. *)
Theorem create_webrtc_phone_rejected
    (cfg : Config) (token : json) (user : User) (tpl sk lang payload : json)
    (r : Response) (rest : list Reply) (log : list Request) :
  build_payload_from_template tpl user = Ret payload ->
  post_created (status_code r) = false ->
  create_webrtc_phone_for_user cfg token user tpl sk lang
    (mkWorld (Resp r :: rest) log)
  = (Ret false, mkWorld rest (log ++ [create_request token payload])).
Proof.
  intros Hp Hc. unfold create_webrtc_phone_for_user.
  rewrite Hp. unfold bind at 1, lift. unfold bind at 1.
  rewrite http_Resp, Hc. reflexivity.
Qed.

Lemma await_station_none cfg token user rs :
  forallb shows_no_station rs = true ->
  forall rest log,
    await_station cfg token user (List.length rs)
      (mkWorld (map Resp rs ++ rest) log)
    = (Ret tt,
       mkWorld rest
         (log ++ repeat (stations_read token (ID user)) (List.length rs))).
Proof.
  induction rs as [|r rs IH]; intros Hall rest log.
  - simpl. rewrite app_nil_r. reflexivity.
  - simpl in Hall. apply andb_prop in Hall. destruct Hall as [Hr Hall].
    unfold shows_no_station in Hr.
    destruct (station_view r) as [[|]|] eqn:Hv; try discriminate Hr.
    destruct (get_webrtc_station_view token (ID user) r false
                (map Resp rs ++ rest) log Hv) as [id Hg].
    simpl List.length. simpl map. simpl app. simpl await_station.
    rewrite (bind_Ret _ _ _ _ _ Hg). cbn [andb].
    rewrite (IH Hall). simpl repeat. rewrite <- app_assoc. reflexivity.
Qed.

(** X13.  When the endpoint is created but none of the six station
    lookups shows it, the workflow sends no default-station PUT and goes
    on to the capabilities: its outcome is that of
    [ensure_user_skill_and_language] after the six lookups. *)
Theorem create_webrtc_phone_unassociated
    (cfg : Config) (token : json) (user : User) (tpl sk lang payload : json)
    (r : Response) (rs : list Response) (rest : list Reply)
    (log : list Request) :
  build_payload_from_template tpl user = Ret payload ->
  post_created (status_code r) = true ->
  List.length rs = 6%nat ->
  forallb shows_no_station rs = true ->
  create_webrtc_phone_for_user cfg token user tpl sk lang
    (mkWorld (Resp r :: map Resp rs ++ rest) log)
  = ensure_user_skill_and_language cfg token user sk lang
      (mkWorld rest
         ((log ++ [create_request token payload])
          ++ repeat (stations_read token (ID user)) 6)).
Proof.
  intros Hp Hc Hlen Hall.
  rewrite (create_webrtc_phone_created _ _ _ _ _ _ _ _ _ _ Hp Hc).
  unfold bind. rewrite <- Hlen.
  rewrite (await_station_none cfg token user rs Hall). reflexivity.
Qed.

Lemma verify_default_station_hit token uid sid misses hit :
  forallb (read_misses sid) misses = true ->
  read_hits sid hit = true ->
  forall n rest log,
    (List.length misses < n)%nat ->
    verify_default_station token uid sid n
      (mkWorld (map Resp misses ++ Resp hit :: rest) log)
    = (Ret true,
       mkWorld rest
         (log ++ repeat (station_read token uid) (S (List.length misses)))).
Proof.
  intros Hm Hh. induction misses as [|r misses IH]; intros n rest log Hn.
  - destruct n as [|n]; [inversion Hn|].
    simpl. unfold bind at 1. rewrite get_user_station_state_Resp.
    unfold read_hits in Hh. unfold bind, lift.
    destruct (is_default_station_set (read_state hit) sid) as [[|]|];
      try discriminate Hh.
    reflexivity.
  - simpl in Hm. apply andb_prop in Hm. destruct Hm as [Hr Hm].
    destruct n as [|n]; [inversion Hn|].
    simpl List.length in Hn. simpl map. simpl app. simpl verify_default_station.
    unfold bind at 1. rewrite get_user_station_state_Resp.
    unfold read_misses in Hr. unfold bind at 1. unfold lift at 1.
    destruct (is_default_station_set (read_state r) sid) as [[|]|];
      try discriminate Hr.
    rewrite (IH Hm n) by lia.
    simpl List.length. simpl repeat. rewrite <- app_assoc. reflexivity.
Qed.

(** X14.  After an accepted PUT the verification stops at the first
    re-read that shows the expected station: with fewer misses before it
    than [DEFAULT_STATION_VERIFY_RETRIES], [set_default_station] returns
    [True] having made exactly those re-reads and that one. *)
Theorem set_default_station_verified
    (cfg : Config) (token uid sid : json) (put : Response)
    (misses : list Response) (hit : Response)
    (rest : list Reply) (log : list Request) :
  put_accepted (status_code put) = true ->
  forallb (read_misses sid) misses = true ->
  read_hits sid hit = true ->
  (List.length misses < range1 (DEFAULT_STATION_VERIFY_RETRIES cfg))%nat ->
  set_default_station cfg token uid sid
    (mkWorld (Resp put :: map Resp misses ++ Resp hit :: rest) log)
  = (Ret true,
     mkWorld rest
       ((log ++ [default_station_put token uid sid])
        ++ repeat (station_read token uid) (S (List.length misses)))).
Proof.
  intros Hacc Hm Hh Hn. unfold set_default_station, bind.
  rewrite http_Resp, Hacc. cbn [negb]. cbv beta iota.
  rewrite (verify_default_station_hit token uid sid misses hit Hm Hh _ _ _ Hn).
  reflexivity.
Qed.

(** X15.  A skill assignment that fails does not stop the language
    assignment: when the skill is absent and its PATCH is rejected, the
    language is still checked and, being absent, assigned by its own
    PATCH; the combined result is [False]. *)
Theorem rejected_skill_patch_still_assigns_language
    (cfg : Config) (token : json) (user : User) (sk lang : json)
    (w w1 w2 : World) (p1 p2 : Response) (rest1 rest2 : list Reply) :
  user_has_skill token (ID user) sk w = (Ret false, w1) ->
  script w1 = Resp p1 :: rest1 ->
  patch_accepted (status_code p1) = false ->
  user_has_language token (ID user) lang
    (mkWorld rest1
       (sent w1 ++ [skill_patch token (ID user) sk (TARGET_SKILL_PROFICIENCY cfg)]))
  = (Ret false, w2) ->
  script w2 = Resp p2 :: rest2 ->
  ensure_user_skill_and_language cfg token user sk lang w
  = (Ret false,
     mkWorld rest2
       (sent w2 ++ [language_patch token (ID user) lang
                      (TARGET_LANGUAGE_PROFICIENCY cfg)])).
Proof.
  intros Hs Hs1 Hp1 Hl Hs2.
  unfold ensure_user_skill_and_language, ensure_user_skill, ensure_user_language.
  unfold bind at 1. unfold bind at 1. rewrite Hs.
  unfold bind at 1. unfold http at 1. rewrite Hs1, Hp1.
  cbn [negb]. unfold ret at 1.
  unfold bind at 1. unfold bind at 1.
  unfold skill_patch in Hl. rewrite Hl.
  unfold bind at 1. unfold http at 1. rewrite Hs2.
  destruct (patch_accepted (status_code p2)); reflexivity.
Qed.

(** ** How many mutations a user costs *)

Lemma count_meth_app mt l1 l2 :
  count_meth mt (l1 ++ l2) = (count_meth mt l1 + count_meth mt l2)%nat.
Proof. unfold count_meth. rewrite filter_app, length_app. reflexivity. Qed.

Lemma count_meth_reads mt l :
  mt <> GET -> Forall (fun rq => meth rq = GET) l -> count_meth mt l = 0%nat.
Proof.
  intros Hmt H. unfold count_meth.
  induction H as [|rq l Hrq _ IH]; [reflexivity|].
  simpl. rewrite Hrq. destruct mt; try exact IH. contradiction Hmt. reflexivity.
Qed.

Lemma within_reads {A} (m : M A) :
  sends (fun rq => meth rq = GET) m -> within 0 0 0 m.
Proof.
  intros Hs w o w' H. destruct (Hs _ _ _ H) as [l [E F]].
  exists l. split; [exact E|].
  rewrite (count_meth_reads POST l), (count_meth_reads PUT l),
    (count_meth_reads PATCH l); auto; discriminate.
Qed.

Lemma within_ret {A} (a : A) : within 0 0 0 (ret a).
Proof. apply within_reads, sends_ret. Qed.

Lemma within_lift {A} (r : result A) : within 0 0 0 (lift r).
Proof. apply within_reads, sends_lift. Qed.

Lemma within_http rq :
  within (count_meth POST [rq]) (count_meth PUT [rq]) (count_meth PATCH [rq])
    (http rq).
Proof.
  intros w o w' H. exists [rq]. split; [|auto].
  unfold http in H. destruct (script w) as [|[r|] rest]; inversion H; reflexivity.
Qed.

Lemma within_bind {A B} p1 u1 a1 p2 u2 a2 (m : M A) (k : A -> M B) :
  within p1 u1 a1 m -> (forall x, within p2 u2 a2 (k x)) ->
  within (p1 + p2) (u1 + u2) (a1 + a2) (bind m k).
Proof.
  intros Hm Hk w o w' H. unfold bind in H.
  destruct (m w) as [[x|e] w1] eqn:E.
  - destruct (Hm _ _ _ E) as [l1 [E1 [P1 [U1 A1]]]].
    destruct (Hk x _ _ _ H) as [l2 [E2 [P2 [U2 A2]]]].
    exists (l1 ++ l2). split; [rewrite E2, E1, app_assoc; reflexivity|].
    rewrite !count_meth_app. lia.
  - inversion H; subst.
    destruct (Hm _ _ _ E) as [l1 [E1 [P1 [U1 A1]]]].
    exists l1. split; [exact E1|]. lia.
Qed.

Lemma within_le {A} p u a p' u' a' (m : M A) :
  within p u a m -> (p <= p')%nat -> (u <= u')%nat -> (a <= a')%nat ->
  within p' u' a' m.
Proof.
  intros Hm Hp Hu Ha w o w' H.
  destruct (Hm _ _ _ H) as [l [E [P1 [U1 A1]]]].
  exists l. split; [exact E|]. lia.
Qed.

Lemma within_try {A} p u a (m : M A) (h : exn -> M A) :
  within p u a m -> (forall e, within 0 0 0 (h e)) ->
  within p u a (try_except_Exception m h).
Proof.
  intros Hm Hh w o w' H. unfold try_except_Exception in H.
  destruct (m w) as [[x|e] w1] eqn:E.
  - inversion H; subst. exact (Hm _ _ _ E).
  - destruct (Hm _ _ _ E) as [l1 [E1 [P1 [U1 A1]]]].
    destruct (is_Exception e).
    + destruct (Hh e _ _ _ H) as [l2 [E2 [P2 [U2 A2]]]].
      exists (l1 ++ l2). split; [rewrite E2, E1, app_assoc; reflexivity|].
      rewrite !count_meth_app. lia.
    + inversion H; subst. exists l1. split; [exact E1|]. lia.
Qed.

Ltac sends_step :=
  match goal with
  | |- sends _ (bind _ _) => apply sends_bind; [|intros ?]
  | |- sends _ (ret _) => apply sends_ret
  | |- sends _ (raise _) => apply sends_raise
  | |- sends _ (lift _) => apply sends_lift
  | |- sends _ (http _) => apply sends_http
  | |- sends _ (while_get _ _ _) => apply sends_while_get; intros
  | |- sends _ (if ?b then _ else _) => destruct b
  | |- sends _ (match ?x with _ => _ end) => destruct x
  end.

Lemma get_webrtc_station_reads token uid :
  sends (fun rq => meth rq = GET) (get_webrtc_station_for_user token uid).
Proof. unfold get_webrtc_station_for_user. repeat sends_step. reflexivity. Qed.

Lemma get_user_station_state_reads token uid :
  sends (fun rq => meth rq = GET) (get_user_station_state token uid).
Proof. unfold get_user_station_state. repeat sends_step. reflexivity. Qed.

Lemma verify_default_station_reads token uid sid n :
  sends (fun rq => meth rq = GET) (verify_default_station token uid sid n).
Proof.
  induction n as [|n IH]; simpl; repeat sends_step;
    try apply get_user_station_state_reads; exact IH.
Qed.

Lemma within_set_default_station cfg token uid sid :
  within 0 1 0 (set_default_station cfg token uid sid).
Proof.
  unfold set_default_station.
  apply (within_bind 0 1 0 0 0 0); [apply within_http|].
  intros r. destruct (negb (put_accepted (status_code r)));
    [apply within_ret|].
  apply (within_bind 0 0 0 0 0 0);
    [apply within_reads, verify_default_station_reads|].
  intros v. destruct v; apply within_ret.
Qed.

Lemma within_await_station cfg token user n :
  within 0 1 0 (await_station cfg token user n).
Proof.
  induction n as [|n IH]; simpl;
    [apply (within_le 0 0 0); [apply within_ret|lia..]|].
  apply (within_bind 0 0 0 0 1 0);
    [apply within_reads, get_webrtc_station_reads|].
  intros [has sid]. destruct (has && truthy sid); [|exact IH].
  apply (within_bind 0 1 0 0 0 0); [apply within_set_default_station|].
  intros _. apply within_ret.
Qed.

Lemma within_ensure_user_skill token user cap q :
  within 0 0 1 (ensure_user_skill token user cap q).
Proof.
  unfold ensure_user_skill.
  apply (within_bind 0 0 0 0 0 1);
    [apply within_reads, user_has_skill_reads|].
  intros has. destruct has.
  - apply (within_le 0 0 0); [apply within_ret|lia..].
  - apply (within_bind 0 0 1 0 0 0); [apply within_http|].
    intros r. destruct (negb (patch_accepted (status_code r))); apply within_ret.
Qed.

Lemma within_ensure_user_language token user cap q :
  within 0 0 1 (ensure_user_language token user cap q).
Proof.
  unfold ensure_user_language.
  apply (within_bind 0 0 0 0 0 1);
    [apply within_reads, user_has_language_reads|].
  intros has. destruct has.
  - apply (within_le 0 0 0); [apply within_ret|lia..].
  - apply (within_bind 0 0 1 0 0 0); [apply within_http|].
    intros r. destruct (negb (patch_accepted (status_code r))); apply within_ret.
Qed.

Lemma within_create_webrtc_phone cfg token user tpl sk lang :
  within 1 1 2 (create_webrtc_phone_for_user cfg token user tpl sk lang).
Proof.
  unfold create_webrtc_phone_for_user.
  apply (within_bind 0 0 0 1 1 2); [apply within_lift|].
  intros payload.
  apply (within_bind 1 0 0 0 1 2); [apply within_http|].
  intros r. destruct (negb (post_created (status_code r))).
  - apply (within_le 0 0 0); [apply within_ret|lia..].
  - apply (within_bind 0 1 0 0 0 2); [apply within_await_station|].
    intros _. unfold ensure_user_skill_and_language.
    apply (within_bind 0 0 1 0 0 1); [apply within_ensure_user_skill|].
    intros ok1.
    apply (within_bind 0 0 1 0 0 0); [apply within_ensure_user_language|].
    intros ok2. apply within_ret.
Qed.

Lemma within_provision cfg token tpl sk lang users :
  forall ok fail,
    within (List.length users) (List.length users) (2 * List.length users)
      (provision cfg token users tpl sk lang ok fail).
Proof.
  induction users as [|u rest IH]; intros ok fail.
  - simpl. apply within_ret.
  - simpl provision.
    apply (within_le (1 + List.length rest) (1 + List.length rest)
             (2 + 2 * List.length rest)); [|simpl List.length; lia..].
    apply within_bind.
    + apply within_try.
      * apply (within_le (1 + 0) (1 + 0) (2 + 0)); [|lia..].
        apply within_bind; [apply within_create_webrtc_phone|].
        intros s. destruct s; apply within_ret.
      * intros e. apply within_ret.
    + intros [ok' fail']. apply IH.
Qed.

(** X16.  For one user the workflow sends at most one POST (the
    endpoint creation), one PUT (the default station) and two PATCHes
    (skill and language), however it ends; the creation loop over [n]
    users sends at most [n] POSTs, [n] PUTs and [2 n] PATCHes. *)
Theorem workflow_mutations_bounded
    (cfg : Config) (token : json) (tpl sk lang : json) :
  (forall user,
      within 1 1 2 (create_webrtc_phone_for_user cfg token user tpl sk lang))
  /\ (forall users ok fail,
         within (List.length users) (List.length users)
           (2 * List.length users)
           (provision cfg token users tpl sk lang ok fail)).
Proof.
  split.
  - intros user. apply within_create_webrtc_phone.
  - intros users ok fail. apply within_provision.
Qed.

(** ** A run that does not reach the creation loop *)

Lemma extends_refl P w : extends P w w.
Proof. exists []. rewrite app_nil_r. auto. Qed.

Lemma extends_trans P w1 w2 w3 :
  extends P w1 w2 -> extends P w2 w3 -> extends P w1 w3.
Proof.
  intros [l1 [E1 F1]] [l2 [E2 F2]]. exists (l1 ++ l2). split.
  - rewrite E2, E1, app_assoc. reflexivity.
  - apply Forall_app. auto.
Qed.

Lemma sends_extends {A} P (m : M A) w o w' :
  sends P m -> m w = (o, w') -> extends P w w'.
Proof. intros Hs H. exact (Hs _ _ _ H). Qed.

Lemma sends_weaken {A} (P Q : Request -> Prop) (m : M A) :
  (forall rq, P rq -> Q rq) -> sends P m -> sends Q m.
Proof.
  intros HPQ Hs w o w' H. destruct (Hs _ _ _ H) as [l [E F]].
  exists l. split; [exact E|]. eapply Forall_impl; [|exact F]. exact HPQ.
Qed.

Lemma harmless_read rq : meth rq = GET -> harmless rq.
Proof. intros H. left. exact H. Qed.

Lemma require_env_harmless cfg : sends harmless (require_env cfg).
Proof. unfold require_env. repeat sends_step. Qed.

Lemma get_access_token_harmless cfg : sends harmless (get_access_token cfg).
Proof.
  intros w o w' H. pose proof (get_access_token_world cfg w) as Hw.
  rewrite H in Hw. simpl in Hw. subst w'. simpl.
  exists [token_request cfg]. split; [reflexivity|].
  constructor; [right; reflexivity | constructor].
Qed.

Lemma find_routing_skill_harmless token name :
  sends harmless (find_routing_skill_id_by_name token name).
Proof. apply sends_while_get. intros s. left. reflexivity. Qed.

Lemma find_routing_language_harmless token name :
  sends harmless (find_routing_language_id_by_name token name).
Proof. apply sends_while_get. intros s. left. reflexivity. Qed.

Lemma find_phone_harmless token name :
  sends harmless (find_phone_id_by_name_contains token name).
Proof. apply sends_while_get. intros s. left. reflexivity. Qed.

Lemma get_phone_details_harmless token id :
  sends harmless (get_phone_details token id).
Proof.
  unfold get_phone_details. repeat sends_step. left. reflexivity.
Qed.

Lemma get_all_active_users_harmless cfg token :
  sends harmless (get_all_active_users cfg token).
Proof. apply sends_while_get. intros s. left. reflexivity. Qed.

Lemma scan_without_webrtc_harmless token users :
  forall acc, sends harmless (scan_without_webrtc token users acc).
Proof.
  induction users as [|u rest IH]; intros acc; simpl.
  - apply sends_ret.
  - apply sends_bind.
    + apply (sends_weaken _ _ _ harmless_read), get_webrtc_station_reads.
    + intros [has id]. apply IH.
Qed.

Lemma get_users_without_webrtc_harmless token users :
  sends harmless (get_users_without_webrtc token users).
Proof. apply scan_without_webrtc_harmless. Qed.

Ltac run_stage H :=
  match type of H with
  | bind ?m ?k ?w = _ =>
      let a := fresh "a" in
      let e := fresh "e" in
      let w1 := fresh "w" in
      let E := fresh "E" in
      destruct (m w) as [[a|e] w1] eqn:E;
      [ rewrite (bind_Ret _ _ _ _ _ E) in H
      | rewrite (bind_Raise _ _ _ _ _ E) in H ]
  | (if ?b then _ else _) _ = _ => destruct b
  end.

Ltac to_extends :=
  repeat match goal with
  | E : require_env _ _ = _ |- _ =>
      apply (sends_extends _ _ _ _ _ (require_env_harmless _)) in E
  | E : get_access_token _ _ = _ |- _ =>
      apply (sends_extends _ _ _ _ _ (get_access_token_harmless _)) in E
  | E : find_routing_skill_id_by_name _ _ _ = _ |- _ =>
      apply (sends_extends _ _ _ _ _ (find_routing_skill_harmless _ _)) in E
  | E : find_routing_language_id_by_name _ _ _ = _ |- _ =>
      apply (sends_extends _ _ _ _ _ (find_routing_language_harmless _ _)) in E
  | E : find_phone_id_by_name_contains _ _ _ = _ |- _ =>
      apply (sends_extends _ _ _ _ _ (find_phone_harmless _ _)) in E
  | E : get_phone_details _ _ _ = _ |- _ =>
      apply (sends_extends _ _ _ _ _ (get_phone_details_harmless _ _)) in E
  | E : get_all_active_users _ _ _ = _ |- _ =>
      apply (sends_extends _ _ _ _ _ (get_all_active_users_harmless _ _)) in E
  | E : get_users_without_webrtc _ _ _ = _ |- _ =>
      apply (sends_extends _ _ _ _ _ (get_users_without_webrtc_harmless _ _)) in E
  end.

Ltac chain :=
  repeat (eapply extends_trans; [eassumption|]); apply extends_refl.

Lemma run_prelude cfg w o w' :
  run cfg w = (o, w') ->
  (forall t, o <> Ret (Some t)) ->
  extends harmless w w'.
Proof.
  unfold run. intros H Hne.
  repeat run_stage H;
    try (rewrite provision_outcomes in *; discriminate);
    try (unfold raise, ret in H; inversion H; subst; to_extends; chain).
  destruct a7 as [ok fail]. unfold ret in H. inversion H; subst.
  exfalso. eapply Hne. reflexivity.
Qed.

(** X17.  Whenever [run] ends otherwise than by reporting a tally
    (it stops with an error, or finds nothing to do), every request it
    has sent is a read or the token exchange: no phone has been created,
    no default station set, no skill or language assigned. *)
Theorem run_aborts_before_mutation (cfg : Config) (w : World) :
  match fst (run cfg w) with
  | Ret (Some _) => True
  | _ => extends harmless w (snd (run cfg w))
  end.
Proof.
  destruct (run cfg w) as [o w'] eqn:H. simpl.
  destruct o as [[t|]|e]; [exact I| |];
    apply (run_prelude _ _ _ _ H); intros t; discriminate.
Qed.

(** ** Shape of the payload *)

(** X18.  Whatever the template, a payload that
    [build_payload_from_template] returns has exactly the five fields
    name, site, phoneBaseSettings, webRtcUser and lines: the name is
    [WebRTC - ] followed by the user's name as text, the owner is the
    user's id, and there is exactly one line, whose base-settings id is a
    true value. *)
Theorem build_payload_from_template_shape
    (tpl : json) (user : User) (payload : json) :
  build_payload_from_template tpl user = Ret payload ->
  exists S B L,
    truthy L = true /\
    payload =
    JObj [("name", JStr ("WebRTC - " ++ py_str (Naam user))%string);
          ("site", JObj [("id", S)]);
          ("phoneBaseSettings", JObj [("id", B)]);
          ("webRtcUser", JObj [("id", ID user)]);
          ("lines", JArr [JObj [("lineBaseSettings", JObj [("id", L)])]])].
Proof.
  unfold build_payload_from_template. intros H.
  repeat match type of H with
  | rbind ?r _ = Ret _ =>
      destruct r; cbn [rbind] in H; [|discriminate H]
  | (if ?b then _ else _) = Ret _ =>
      let E := fresh "E" in destruct b eqn:E; [discriminate H|]
  end.
  inversion H. eexists _, _, _. split; [|reflexivity].
  apply negb_false_iff. assumption.
Qed.

(** ** The run as a whole *)

Lemma run_resolved cfg w0 token sk lang tpl w5 :
  resolved cfg w0 token sk lang tpl w5 ->
  run cfg w0 =
  bind (get_all_active_users cfg token)
       (fun users_all =>
          bind (get_users_without_webrtc token users_all)
               (fun users =>
                  match users with
                  | [] => ret None
                  | _ =>
                      bind (provision cfg token users tpl sk lang 0 0)
                           (fun c => ret (Some (fst c, snd c,
                                                Z.of_nat (List.length users))))
                  end)) w5.
Proof.
  intros [Hc [w1 [w2 [w3 [w4 [pid H]]]]]].
  destruct H as [Ht [Tt [Hs [Ts [Hl [Tl [Hp [Tp [Hd Td]]]]]]]]].
  unfold credentials_set in Hc. apply andb_prop in Hc. destruct Hc as [Hi Hx].
  unfold run, require_env. rewrite Hi, Hx. cbn [negb orb].
  unfold bind at 1. unfold ret at 1.
  rewrite (bind_Ret _ _ _ _ _ Ht), Tt. cbn [negb].
  rewrite (bind_Ret _ _ _ _ _ Hs), Ts. cbn [negb].
  rewrite (bind_Ret _ _ _ _ _ Hl), Tl. cbn [negb].
  rewrite (bind_Ret _ _ _ _ _ Hp), Tp. cbn [negb].
  rewrite (bind_Ret _ _ _ _ _ Hd), Td. cbn [negb].
  unfold bind.
  destruct (get_all_active_users cfg token w5) as [[all|e] w6]; [|reflexivity].
  destruct (get_users_without_webrtc token all w6) as [[users|e] w7];
    [|reflexivity].
  destruct users as [|u us]; [reflexivity|].
  destruct (provision cfg token (u :: us) tpl sk lang 0 0 w7) as [[[ok fail]|e] w8];
    reflexivity.
Qed.

(** X19.  Once the resolution has succeeded, the users are fetched and
    those without endpoint selected, [run] ends normally: with nothing to
    do when that selection is empty, and otherwise with the tally of the
    workflow's outcomes over exactly the selected users, in the world the
    last of them left. *)
Theorem run_reports_workflow_outcomes
    (cfg : Config) (w0 : World) (token sk lang tpl : json) (w5 w6 w7 : World)
    (users_all users : list User) :
  resolved cfg w0 token sk lang tpl w5 ->
  get_all_active_users cfg token w5 = (Ret users_all, w6) ->
  get_users_without_webrtc token users_all w6 = (Ret users, w7) ->
  run cfg w0 =
  match users with
  | [] => (Ret None, w7)
  | _ =>
      let os := fst (workflow_outcomes cfg token users tpl sk lang w7) in
      (Ret (Some (tally succeeded os, tally failed os,
                  Z.of_nat (List.length users))),
       snd (workflow_outcomes cfg token users tpl sk lang w7))
  end.
Proof.
  intros Hr Ha Hu. rewrite (run_resolved _ _ _ _ _ _ _ Hr).
  rewrite (bind_Ret _ _ _ _ _ Ha), (bind_Ret _ _ _ _ _ Hu).
  destruct users as [|u us]; [reflexivity|].
  unfold bind. rewrite provision_outcomes. reflexivity.
Qed.

Lemma scan_without_webrtc_transport_error token users :
  forall rs bs acc more rest log,
    map station_view rs = map Some bs ->
    List.length rs = List.length users ->
    more <> [] ->
    fst (scan_without_webrtc token (users ++ more) acc
           (mkWorld (map Resp rs ++ NetErr :: rest) log))
    = Raise RequestException.
Proof.
  induction users as [|u us IH]; intros rs bs acc more rest log Hv Hl Hm.
  - destruct rs; [|discriminate Hl]. destruct more as [|u more]; [contradiction|].
    reflexivity.
  - destruct rs as [|r rs]; [discriminate Hl|].
    destruct bs as [|b bs]; [discriminate Hv|].
    simpl in Hv. inversion Hv as [[Hr Hrs]]. simpl in Hl. inversion Hl as [Hl'].
    destruct (get_webrtc_station_view token (ID u) r b
                (map Resp rs ++ NetErr :: rest) log Hr) as [id Hg].
    simpl map. simpl app. simpl scan_without_webrtc.
    rewrite (bind_Ret _ _ _ _ _ Hg).
    apply (IH rs bs _ more rest _ Hrs Hl' Hm).
Qed.

(** X20.  The scan for users without endpoint is not isolated user by
    user: a station lookup that fails at the transport level, after any
    number of lookups that went through, makes
    [get_users_without_webrtc] raise; and an exception of the user fetch
    or of the scan ends [run] with that exception, before the creation
    loop. *)
Theorem scan_failure_ends_run
    (cfg : Config) (w0 : World) (token sk lang tpl : json) (w5 : World) :
  (forall users more rs bs rest log,
      map station_view rs = map Some bs ->
      List.length rs = List.length users ->
      more <> [] ->
      fst (get_users_without_webrtc token (users ++ more)
             (mkWorld (map Resp rs ++ NetErr :: rest) log))
      = Raise RequestException)
  /\ (resolved cfg w0 token sk lang tpl w5 ->
      (forall e w6,
          get_all_active_users cfg token w5 = (Raise e, w6) ->
          run cfg w0 = (Raise e, w6))
      /\ (forall users_all w6 e w7,
             get_all_active_users cfg token w5 = (Ret users_all, w6) ->
             get_users_without_webrtc token users_all w6 = (Raise e, w7) ->
             run cfg w0 = (Raise e, w7))).
Proof.
  split.
  - intros users more rs bs rest log Hv Hl Hm.
    apply (scan_without_webrtc_transport_error token users rs bs [] more rest log
             Hv Hl Hm).
  - intros Hr. split.
    + intros e w6 Ha. rewrite (run_resolved _ _ _ _ _ _ _ Hr).
      apply (bind_Raise _ _ _ _ _ Ha).
    + intros users_all w6 e w7 Ha Hu. rewrite (run_resolved _ _ _ _ _ _ _ Hr).
      rewrite (bind_Ret _ _ _ _ _ Ha). apply (bind_Raise _ _ _ _ _ Hu).
Qed.

(** ** Instances of the further properties *)

Lemma run_without_credentials_witness :
  exists msg,
    run without_secret lineless_run = (Raise (SystemExit msg), lineless_run).
Proof. apply (run_without_credentials without_secret lineless_run eq_refl). Defined.

Lemma get_access_token_outcomes_witness :
  fst (get_access_token default_config (mkWorld [NetErr] [])) = Ret JNull
  /\ run default_config (mkWorld [Resp unavailable] [])
     = (Raise (SystemExit "Could not obtain access token"),
        mkWorld [] [token_request default_config]).
Proof.
  split.
  - apply (proj1 (proj2 (get_access_token_outcomes default_config
                           (mkWorld [NetErr] [])))).
    reflexivity.
  - apply (proj2 (proj2 (proj2 (get_access_token_outcomes default_config
                                  (mkWorld [Resp unavailable] []))))); reflexivity.
Defined.

Lemma is_default_station_set_shapes_witness :
  is_default_station_set (JObj [("station", JObj [("id", JStr "st1")])])
    (JStr "st1")
  = Ret (shows_station_id "st1" [("station", JObj [("id", JStr "st1")])]).
Proof.
  apply (is_default_station_set_shapes
           [("station", JObj [("id", JStr "st1")])] "st1" eq_refl).
Defined.

Lemma get_users_without_webrtc_filters_witness :
  get_users_without_webrtc tok [alice; bob]
    (mkWorld (map Resp [with_station; unavailable] ++ []) [])
  = (Ret (lacking [alice; bob] [true; false]),
     mkWorld []
       ([] ++ map (fun u => stations_read tok (ID u)) [alice; bob])).
Proof.
  apply (get_users_without_webrtc_filters tok [alice; bob]
           [with_station; unavailable] [true; false] [] [] eq_refl eq_refl).
Defined.

Lemma find_routing_language_id_first_match_witness :
  fst (find_routing_language_id_by_name tok " nederlands "
         (mkWorld
            (map Resp [page_of [named_entity "l0" "English"] 2;
                       page_of [named_entity "l1" "Nederlands"] 2] ++ [])
            []))
  = Ret (match find (named (lower (strip " nederlands ")))
                 [named_entity "l0" "English"; named_entity "l1" "Nederlands"]
         with
         | Some d => id_of d
         | None => JNull
         end).
Proof.
  apply (find_routing_language_id_first_match tok " nederlands "
           [page_of [named_entity "l0" "English"] 2;
            page_of [named_entity "l1" "Nederlands"] 2]
           [named_entity "l0" "English"; named_entity "l1" "Nederlands"]
           [] [] eq_refl eq_refl).
Defined.

Lemma find_phone_id_first_containing_witness :
  fst (find_phone_id_by_name_contains tok "genesys test"
         (mkWorld
            (map Resp [page_of [named_entity "p0" "Desk phone"] 2;
                       page_of [named_entity "ph1" "WebRTC - Genesys Test User 1"] 2]
             ++ [])
            []))
  = Ret (match find (name_contains (lower (strip "genesys test")))
                 [named_entity "p0" "Desk phone";
                  named_entity "ph1" "WebRTC - Genesys Test User 1"]
         with
         | Some d => id_of d
         | None => JNull
         end).
Proof.
  apply (find_phone_id_first_containing tok "genesys test"
           [page_of [named_entity "p0" "Desk phone"] 2;
            page_of [named_entity "ph1" "WebRTC - Genesys Test User 1"] 2]
           [named_entity "p0" "Desk phone";
            named_entity "ph1" "WebRTC - Genesys Test User 1"]
           [] [] eq_refl eq_refl).
Defined.

Lemma user_has_capability_membership_witness :
  fst (user_has_skill tok (JStr "u1") (JStr "sk1")
         (mkWorld
            (map Resp [page_of [named_entity "sk0" "Support"] 2;
                       page_of [named_entity "sk1" "_Voice"] 2] ++ [])
            []))
  = Ret (existsb (is_capability (JStr "sk1"))
           [named_entity "sk0" "Support"; named_entity "sk1" "_Voice"])
  /\ fst (user_has_language tok (JStr "u1") (JStr "sk1")
            (mkWorld
               (map Resp [page_of [named_entity "sk0" "Support"] 2;
                          page_of [named_entity "sk1" "_Voice"] 2] ++ [])
               []))
     = Ret (existsb (is_capability (JStr "sk1"))
              [named_entity "sk0" "Support"; named_entity "sk1" "_Voice"]).
Proof.
  apply (user_has_capability_membership tok (JStr "u1") (JStr "sk1")
           [page_of [named_entity "sk0" "Support"] 2;
            page_of [named_entity "sk1" "_Voice"] 2]
           [named_entity "sk0" "Support"; named_entity "sk1" "_Voice"]
           [] [] eq_refl).
Defined.

Lemma lookups_stop_at_failed_page_witness :
  find_routing_skill_id_by_name tok "_Voice"
    (mkWorld (map Resp [scenario_skills_page1]
                ++ Resp unavailable :: [Resp scenario_skills_page2]) [])
  = (Ret JNull,
     mkWorld [Resp scenario_skills_page2]
       ([] ++ page_requests (skills_lookup tok) 1 2)).
Proof.
  apply (proj1 (lookups_stop_at_failed_page tok "_Voice"
                  [scenario_skills_page1] unavailable
                  [Resp scenario_skills_page2] [] eq_refl)).
  reflexivity.
Defined.

Lemma get_all_active_users_actives_witness :
  fst (get_all_active_users default_config tok
         (mkWorld (map Resp [users_first; users_last] ++ []) []))
  = Ret (actives [entity "u1" "Alice" "active"; entity "u3" "Carol" "inactive";
                  entity "u2" "Bob" "active"]).
Proof.
  apply (get_all_active_users_actives default_config tok
           [users_first; users_last]
           [entity "u1" "Alice" "active"; entity "u3" "Carol" "inactive";
            entity "u2" "Bob" "active"]
           [] [] eq_refl eq_refl).
Defined.

Lemma get_all_active_users_partial_witness :
  get_all_active_users default_config tok
    (mkWorld (map Resp [users_first] ++ Resp unavailable :: []) [])
  = (Ret (actives [entity "u1" "Alice" "active";
                   entity "u3" "Carol" "inactive"]),
     mkWorld [] ([] ++ page_requests (users_read tok) 1 2)).
Proof.
  apply (get_all_active_users_partial default_config tok [users_first]
           [entity "u1" "Alice" "active"; entity "u3" "Carol" "inactive"]
           unavailable [] [] eq_refl eq_refl eq_refl).
Defined.

Lemma get_all_active_users_capped_witness :
  get_all_active_users capped_config tok
    (mkWorld (map Resp [] ++ Resp users_crowded :: [Resp users_last]) [])
  = (Ret (firstn (Z.to_nat (MAX_USERS capped_config))
            (actives ([] ++ [entity "u1" "Alice" "active";
                             entity "u2" "Bob" "active"]))),
     mkWorld [Resp users_last] ([] ++ page_requests (users_read tok) 1 1))
  /\ List.length
       (firstn (Z.to_nat (MAX_USERS capped_config))
          (actives ([] ++ [entity "u1" "Alice" "active";
                           entity "u2" "Bob" "active"])))
     = Z.to_nat (MAX_USERS capped_config).
Proof.
  apply (get_all_active_users_capped capped_config tok [] [] users_crowded
           [entity "u1" "Alice" "active"; entity "u2" "Bob" "active"] 2
           [Resp users_last] []);
    vm_compute; reflexivity || (intros H; discriminate H).
Defined.

Lemma create_webrtc_phone_rejected_witness :
  exists payload,
    create_webrtc_phone_for_user default_config tok alice template_phone
      (JStr "sk1") (JStr "lang1") (mkWorld [Resp unavailable] [])
    = (Ret false, mkWorld [] ([] ++ [create_request tok payload])).
Proof.
  eexists.
  apply (create_webrtc_phone_rejected default_config tok alice template_phone
           (JStr "sk1") (JStr "lang1") _ unavailable [] []); reflexivity.
Defined.

Lemma create_webrtc_phone_unassociated_witness :
  exists payload,
    create_webrtc_phone_for_user default_config tok alice template_phone
      (JStr "sk1") (JStr "lang1")
      (mkWorld (Resp (mkResponse 201 None)
                  :: map Resp (repeat no_station 6) ++ []) [])
    = ensure_user_skill_and_language default_config tok alice
        (JStr "sk1") (JStr "lang1")
        (mkWorld []
           (([] ++ [create_request tok payload])
            ++ repeat (stations_read tok (ID alice)) 6)).
Proof.
  eexists.
  apply (create_webrtc_phone_unassociated default_config tok alice
           template_phone (JStr "sk1") (JStr "lang1") _
           (mkResponse 201 None) (repeat no_station 6) [] []); reflexivity.
Defined.

Lemma set_default_station_verified_witness :
  set_default_station default_config tok (JStr "u1") (JStr "st1")
    (mkWorld (Resp (mkResponse 204 None)
                :: map Resp [other_station; other_station]
                   ++ Resp station_st1 :: [Resp other_station]) [])
  = (Ret true,
     mkWorld [Resp other_station]
       (([] ++ [default_station_put tok (JStr "u1") (JStr "st1")])
        ++ repeat (station_read tok (JStr "u1")) 3)).
Proof.
  apply (set_default_station_verified default_config tok (JStr "u1")
           (JStr "st1") (mkResponse 204 None) [other_station; other_station]
           station_st1 [Resp other_station] []);
    vm_compute; reflexivity || (repeat constructor).
Defined.

Lemma rejected_skill_patch_still_assigns_language_witness :
  ensure_user_skill_and_language default_config tok alice
    (JStr "sk1") (JStr "lang1") rejected_skill_run
  = (Ret false,
     mkWorld []
       ([skills_read tok (JStr "u1") 1;
         skill_patch tok (JStr "u1") (JStr "sk1") (Qmake 0 1);
         languages_read tok (JStr "u1") 1]
        ++ [language_patch tok (ID alice) (JStr "lang1")
              (TARGET_LANGUAGE_PROFICIENCY default_config)])).
Proof.
  apply (rejected_skill_patch_still_assigns_language default_config tok alice
           (JStr "sk1") (JStr "lang1") rejected_skill_run
           (mkWorld [Resp unavailable; Resp no_station; status_only 200]
              [skills_read tok (JStr "u1") 1])
           (mkWorld [status_only 200]
              [skills_read tok (JStr "u1") 1;
               skill_patch tok (JStr "u1") (JStr "sk1") (Qmake 0 1);
               languages_read tok (JStr "u1") 1])
           unavailable (mkResponse 200 None)
           [Resp no_station; status_only 200] []);
    reflexivity.
Defined.

Lemma workflow_mutations_bounded_witness :
  exists l,
    sent (snd (create_webrtc_phone_for_user default_config tok alice
                 template_phone (JStr "sk1") (JStr "lang1")
                 rejected_default_run))
    = sent rejected_default_run ++ l
    /\ (count_meth POST l <= 1)%nat
    /\ (count_meth PUT l <= 1)%nat
    /\ (count_meth PATCH l <= 2)%nat.
Proof.
  apply (proj1 (workflow_mutations_bounded default_config tok template_phone
                  (JStr "sk1") (JStr "lang1")) alice rejected_default_run
           (fst (create_webrtc_phone_for_user default_config tok alice
                   template_phone (JStr "sk1") (JStr "lang1")
                   rejected_default_run))).
  apply surjective_pairing.
Defined.

Lemma build_payload_from_template_shape_witness :
  exists S B L,
    truthy L = true /\
    JObj [("name", JStr "WebRTC - Alice");
          ("site", JObj [("id", JStr "S")]);
          ("phoneBaseSettings", JObj [("id", JStr "B")]);
          ("webRtcUser", JObj [("id", JStr "u1")]);
          ("lines", JArr [JObj [("lineBaseSettings", JObj [("id", JStr "L")])]])]
    = JObj [("name", JStr ("WebRTC - " ++ py_str (Naam alice))%string);
            ("site", JObj [("id", S)]);
            ("phoneBaseSettings", JObj [("id", B)]);
            ("webRtcUser", JObj [("id", ID alice)]);
            ("lines", JArr [JObj [("lineBaseSettings", JObj [("id", L)])]])].
Proof.
  apply (build_payload_from_template_shape template_phone alice). reflexivity.
Defined.

Lemma lineless_run_resolved :
  resolved default_config lineless_run tok (JStr "sk1") (JStr "lang1")
    template_without_lines lineless_resolved.
Proof.
  split; [reflexivity|].
  exists (mkWorld (skipn 1 (script lineless_run)) [token_request default_config]).
  exists (mkWorld (skipn 2 (script lineless_run))
            [token_request default_config; skills_lookup tok 1]).
  exists (mkWorld (skipn 3 (script lineless_run))
            [token_request default_config; skills_lookup tok 1;
             languages_lookup tok 1]).
  exists (mkWorld (skipn 4 (script lineless_run))
            [token_request default_config; skills_lookup tok 1;
             languages_lookup tok 1; phones_lookup tok 1]).
  exists (JStr "ph1").
  repeat split; vm_compute; reflexivity.
Defined.

Lemma run_reports_workflow_outcomes_witness :
  run default_config lineless_run =
  (Ret (Some (tally succeeded
                (fst (workflow_outcomes default_config tok [alice; bob]
                        template_without_lines (JStr "sk1") (JStr "lang1")
                        lineless_scanned)),
              tally failed
                (fst (workflow_outcomes default_config tok [alice; bob]
                        template_without_lines (JStr "sk1") (JStr "lang1")
                        lineless_scanned)),
              Z.of_nat (List.length [alice; bob]))),
   snd (workflow_outcomes default_config tok [alice; bob]
          template_without_lines (JStr "sk1") (JStr "lang1") lineless_scanned)).
Proof.
  apply (run_reports_workflow_outcomes default_config lineless_run tok
           (JStr "sk1") (JStr "lang1") template_without_lines
           lineless_resolved lineless_fetched lineless_scanned
           [alice; bob] [alice; bob] lineless_run_resolved);
    vm_compute; reflexivity.
Defined.

Lemma broken_fetch_run_resolved :
  resolved default_config broken_fetch_run tok (JStr "sk1") (JStr "lang1")
    template_phone broken_fetch_resolved.
Proof.
  split; [reflexivity|].
  exists (mkWorld (skipn 1 (script broken_fetch_run))
            [token_request default_config]).
  exists (mkWorld (skipn 2 (script broken_fetch_run))
            [token_request default_config; skills_lookup tok 1]).
  exists (mkWorld (skipn 3 (script broken_fetch_run))
            [token_request default_config; skills_lookup tok 1;
             languages_lookup tok 1]).
  exists (mkWorld (skipn 4 (script broken_fetch_run))
            [token_request default_config; skills_lookup tok 1;
             languages_lookup tok 1; phones_lookup tok 1]).
  exists (JStr "ph1").
  repeat split; vm_compute; reflexivity.
Defined.

Lemma scan_failure_ends_run_witness :
  fst (get_users_without_webrtc tok ([alice] ++ [bob])
         (mkWorld (map Resp [with_station] ++ NetErr :: []) []))
  = Raise RequestException
  /\ run default_config broken_fetch_run
     = (Raise RequestException,
        mkWorld [] (sent broken_fetch_resolved ++ [users_read tok 1])).
Proof.
  pose proof (scan_failure_ends_run default_config broken_fetch_run tok
                (JStr "sk1") (JStr "lang1") template_phone
                broken_fetch_resolved) as [Hscan Hrun].
  split.
  - apply (Hscan [alice] [bob] [with_station] [true] [] []);
      [reflexivity | reflexivity | discriminate].
  - apply (proj1 (Hrun broken_fetch_run_resolved)). reflexivity.
Defined.
